(** * Conditional field visibility of the form builder

    A shallow embedding of [evaluateConditionalLogic]
    (src/components/ConditionalLogicEditor.tsx) and of its caller
    [isFieldVisible] (src/components/FormPreview.tsx), together with the
    fragment of JavaScript the two functions rely on: truthiness, [String(v)],
    [a || b], strict equality, [toLowerCase], [includes] and property lookup in
    a plain object used as a dictionary. *)

From Stdlib Require Import ZArith Bool Ascii String List DecimalString.
From stdpp Require Import gmap strings.

Local Open Scope string_scope.

(** ** JavaScript values held by an answer set

    [formData : Record<string, any>].  The render surfaces store strings
    (text inputs, selects, radios) and booleans (checkboxes).  The answer set
    is a plain object, so a key it does not hold is looked up in
    [Object.prototype]: it reads as the inherited member when there is one
    and as [undefined] otherwise.  Numbers are modelled when they are
    integers, which [String] prints in plain decimal notation; fractions, NaN
    and the infinities are outside the model, as is text beyond ASCII. *)

(** The properties every plain object inherits from [Object.prototype]. *)
Inductive PrototypeMember : Type :=
  | m_constructor
  | m_defineGetter
  | m_defineSetter
  | m_hasOwnProperty
  | m_lookupGetter
  | m_lookupSetter
  | m_isPrototypeOf
  | m_propertyIsEnumerable
  | m_toString
  | m_valueOf
  | m_toLocaleString
  | m_proto.

#[global] Instance PrototypeMember_eq_dec : EqDecision PrototypeMember.
Proof. solve_decision. Defined.

(** The key under which a member is inherited. *)
Definition member_key (m : PrototypeMember) : string :=
  match m with
  | m_constructor => "constructor"
  | m_defineGetter => "__defineGetter__"
  | m_defineSetter => "__defineSetter__"
  | m_hasOwnProperty => "hasOwnProperty"
  | m_lookupGetter => "__lookupGetter__"
  | m_lookupSetter => "__lookupSetter__"
  | m_isPrototypeOf => "isPrototypeOf"
  | m_propertyIsEnumerable => "propertyIsEnumerable"
  | m_toString => "toString"
  | m_valueOf => "valueOf"
  | m_toLocaleString => "toLocaleString"
  | m_proto => "__proto__"
  end.

Definition prototype_members : list PrototypeMember :=
  [m_constructor; m_defineGetter; m_defineSetter; m_hasOwnProperty;
   m_lookupGetter; m_lookupSetter; m_isPrototypeOf; m_propertyIsEnumerable;
   m_toString; m_valueOf; m_toLocaleString; m_proto].

(** The member of [Object.prototype] found under [key], if any. *)
Definition inherited (key : string) : option PrototypeMember :=
  List.find (fun m => String.eqb (member_key m) key) prototype_members.

Inductive JsValue : Type :=
  | JsUndefined
  | JsNull
  | JsBoolean (b : bool)
  | JsNumber (n : Z)
  | JsString (s : string)
  | JsBuiltin (m : PrototypeMember).

#[global] Instance JsValue_eq_dec : EqDecision JsValue.
Proof. solve_decision. Defined.

(** [ToBoolean]: the falsy values are [undefined], [null], [false], [0], [""];
    a function or an object is truthy. *)
Definition ToBoolean (v : JsValue) : bool :=
  match v with
  | JsUndefined => false
  | JsNull => false
  | JsBoolean b => b
  | JsNumber n => negb (n =? 0)%Z
  | JsString s => negb (String.eqb s "")
  | JsBuiltin _ => true
  end.

(** [String] of an inherited member.  [constructor] is the function
    [Object], [__proto__] reads as [Object.prototype] itself, the others are
    functions named after their key.  The text of a native function is the
    one V8 prints; other engines differ in white space only. *)
Definition builtin_text (m : PrototypeMember) : string :=
  match m with
  | m_constructor => "function Object() { [native code] }"
  | m_proto => "[object Object]"
  | _ => "function " +:+ member_key m +:+ "() { [native code] }"
  end.

(** [String(v)]. *)
Definition ToString (v : JsValue) : string :=
  match v with
  | JsUndefined => "undefined"
  | JsNull => "null"
  | JsBoolean true => "true"
  | JsBoolean false => "false"
  | JsNumber n => NilZero.string_of_int (Z.to_int n)
  | JsString s => s
  | JsBuiltin m => builtin_text m
  end.

(** [a || b]. *)
Definition js_or (a b : JsValue) : JsValue :=
  if ToBoolean a then a else b.

(** [a === b] on the modelled values; two inherited members are the same
    object exactly when they are the same member. *)
Definition strict_eq (a b : JsValue) : bool :=
  match a, b with
  | JsUndefined, JsUndefined => true
  | JsNull, JsNull => true
  | JsBoolean x, JsBoolean y => Bool.eqb x y
  | JsNumber x, JsNumber y => (x =? y)%Z
  | JsString x, JsString y => String.eqb x y
  | JsBuiltin x, JsBuiltin y => bool_decide (x = y)
  | _, _ => false
  end.

(** ** Strings *)

(** [toLowerCase] on one ASCII character: 'A'..'Z' move to 'a'..'z'. *)
Definition lower_ascii (c : ascii) : ascii :=
  let n := N_of_ascii c in
  if ((65 <=? n) && (n <=? 90))%N then ascii_of_N (n + 32) else c.

Fixpoint toLowerCase (s : string) : string :=
  match s with
  | EmptyString => EmptyString
  | String c s' => String (lower_ascii c) (toLowerCase s')
  end.

(** [s.startsWith(t)]. *)
Fixpoint startsWith (s t : string) {struct t} : bool :=
  match t, s with
  | EmptyString, _ => true
  | String _ _, EmptyString => false
  | String b t', String a s' => Ascii.eqb a b && startsWith s' t'
  end.

(** [s.includes(t)]: [t] occurs at some position of [s]. *)
Fixpoint includes (s t : string) : bool :=
  startsWith s t ||
  match s with
  | EmptyString => false
  | String _ s' => includes s' t
  end.

(** ** Rules and fields, as the interfaces declare them *)

Inductive Action : Type := show | hide.

Inductive Operator : Type := equals | not_equals | contains | not_empty.

Record ConditionalLogic : Type := {
  enabled : bool;
  action : Action;
  sourceFieldId : string;
  operator : Operator;
  value : string;
}.

(** The element type of [fields]: [{ id: string; field_name: string }]. *)
Record FieldRef : Type := {
  id : string;
  field_name : string;
}.

(** [formData[key]] on a plain object: the stored value when the object
    holds the key, else the member inherited from [Object.prototype] under
    that key, else [undefined]. *)
Definition get (formData : gmap string JsValue) (key : string) : JsValue :=
  match formData !! key with
  | Some v => v
  | None =>
      match inherited key with
      | Some m => JsBuiltin m
      | None => JsUndefined
      end
  end.

(** [fields.find(f => f.id === sourceFieldId)]: the first match. *)
Definition findSource (fields : list FieldRef) (sourceFieldId : string)
  : option FieldRef :=
  List.find (fun f => String.eqb (id f) sourceFieldId) fields.

(** The [switch (logic.operator)] of [evaluateConditionalLogic]. *)
Definition conditionMet (op : Operator) (sourceValue : JsValue)
    (targetValue : string) : bool :=
  match op with
  | equals =>
      String.eqb (toLowerCase (ToString (js_or sourceValue (JsString ""))))
                 (toLowerCase targetValue)
  | not_equals =>
      negb (String.eqb (toLowerCase (ToString (js_or sourceValue (JsString ""))))
                       (toLowerCase targetValue))
  | contains =>
      includes (toLowerCase (ToString (js_or sourceValue (JsString ""))))
               (toLowerCase targetValue)
  | not_empty =>
      negb (strict_eq sourceValue JsUndefined)
      && negb (strict_eq sourceValue (JsString ""))
      && negb (strict_eq sourceValue JsNull)
      && negb (strict_eq sourceValue (JsBoolean false))
  end.

Definition evaluateConditionalLogic (logic : option ConditionalLogic)
    (formData : gmap string JsValue) (fields : list FieldRef) : bool :=
  match logic with
  | None => true
  | Some logic =>
      if negb (enabled logic) then true
      else
        match findSource fields (sourceFieldId logic) with
        | None => true
        | Some sourceField =>
            let sourceValue := get formData (field_name sourceField) in
            let targetValue := value logic in
            let met := conditionMet (operator logic) sourceValue targetValue in
            match action logic with
            | show => met
            | hide => negb met
            end
        end
  end.

(** ** The caller in the live preview *)

Module FormPreview.

(** [interface Field] of FormPreview.tsx.  [conditional_logic] is optional
    and nullable: [None] is a missing property, [Some None] is [null]. *)
Record Field : Type := {
  id : string;
  field_name : string;
  field_type : string;
  field_label : string;
  placeholder : string;
  required : bool;
  options : option (list string);
  order_index : Z;
  conditional_logic : option (option ConditionalLogic);
}.

(** [field.conditional_logic || null]: an object is truthy, a missing
    property and [null] are not. *)
Definition or_null (l : option (option ConditionalLogic))
  : option ConditionalLogic :=
  match l with
  | Some (Some logic) => Some logic
  | Some None => None
  | None => None
  end.

(** [fields.map(f => ({ id: f.id, field_name: f.field_name }))]. *)
Definition refs (fields : list Field) : list FieldRef :=
  List.map (fun f => Build_FieldRef (id f) (field_name f)) fields.

Definition isFieldVisible (fields : list Field)
    (previewData : gmap string JsValue) (field : Field) : bool :=
  evaluateConditionalLogic (or_null (conditional_logic field))
                           previewData (refs fields).

(** [updatePreviewData]: [{ ...prev, [fieldName]: value }]. *)
Definition updatePreviewData (fieldName : string) (v : JsValue)
    (prev : gmap string JsValue) : gmap string JsValue :=
  <[fieldName := v]> prev.

End FormPreview.

(** ** The evaluator with the types erased

    [conditional_logic] is a [jsonb] column cast to [ConditionalLogic] when it
    is read, so at run time each property of a rule is an arbitrary JSON
    value, and a property the object lacks reads as [undefined].  This is the
    same function body, executed on such an object. *)

Module Erased.

Record RawLogic : Type := {
  raw_enabled : JsValue;
  raw_action : JsValue;
  raw_sourceFieldId : JsValue;
  raw_operator : JsValue;
  raw_value : JsValue;
}.

(** Outcome of running the body: a returned value or a thrown [TypeError]. *)
Inductive Completion (A : Type) : Type :=
  | Returns (a : A)
  | Throws_TypeError.
Arguments Returns {A} a.
Arguments Throws_TypeError {A}.

Definition bind {A B} (c : Completion A) (k : A -> Completion B)
  : Completion B :=
  match c with
  | Returns a => k a
  | Throws_TypeError => Throws_TypeError
  end.

Notation "'run' x <- c ; k" := (bind c (fun x => k))
  (at level 10, x name, c at level 100, k at level 200).

(** [v.toLowerCase()]: only a string has the method. *)
Definition call_toLowerCase (v : JsValue) : Completion string :=
  match v with
  | JsString s => Returns (toLowerCase s)
  | _ => Throws_TypeError
  end.

(** [fields.find(f => f.id === logic.sourceFieldId)]. *)
Definition findSource (fields : list FieldRef) (sourceFieldId : JsValue)
  : option FieldRef :=
  List.find (fun f => strict_eq (JsString (id f)) sourceFieldId) fields.

(** The [switch], which has no [default]: an operator that matches no
    [case] leaves [conditionMet] at its initial [false]. *)
Definition conditionMet (op sourceValue targetValue : JsValue)
  : Completion bool :=
  let lhs := toLowerCase (ToString (js_or sourceValue (JsString ""))) in
  if strict_eq op (JsString "equals") then
    run rhs <- call_toLowerCase targetValue; Returns (String.eqb lhs rhs)
  else if strict_eq op (JsString "not_equals") then
    run rhs <- call_toLowerCase targetValue; Returns (negb (String.eqb lhs rhs))
  else if strict_eq op (JsString "contains") then
    run rhs <- call_toLowerCase targetValue; Returns (includes lhs rhs)
  else if strict_eq op (JsString "not_empty") then
    Returns (negb (strict_eq sourceValue JsUndefined)
             && negb (strict_eq sourceValue (JsString ""))
             && negb (strict_eq sourceValue JsNull)
             && negb (strict_eq sourceValue (JsBoolean false)))
  else Returns false.

Definition evaluateConditionalLogic (logic : option RawLogic)
    (formData : gmap string JsValue) (fields : list FieldRef)
  : Completion bool :=
  match logic with
  | None => Returns true
  | Some logic =>
      if negb (ToBoolean (raw_enabled logic)) then Returns true
      else
        match findSource fields (raw_sourceFieldId logic) with
        | None => Returns true
        | Some sourceField =>
            let sourceValue := get formData (field_name sourceField) in
            let targetValue := raw_value logic in
            run met <- conditionMet (raw_operator logic) sourceValue targetValue;
            Returns (if strict_eq (raw_action logic) (JsString "show")
                     then met else negb met)
        end
  end.

(** The run-time object of a well-typed rule. *)
Definition action_tag (a : Action) : string :=
  match a with show => "show" | hide => "hide" end.

Definition operator_tag (o : Operator) : string :=
  match o with
  | equals => "equals"
  | not_equals => "not_equals"
  | contains => "contains"
  | not_empty => "not_empty"
  end.

Definition erase (logic : ConditionalLogic) : RawLogic :=
  {| raw_enabled := JsBoolean (enabled logic);
     raw_action := JsString (action_tag (action logic));
     raw_sourceFieldId := JsString (sourceFieldId logic);
     raw_operator := JsString (operator_tag (operator logic));
     raw_value := JsString (value logic) |}.

End Erased.

(** ** The rule editor

    The component body of [ConditionalLogicEditor]: which fields it offers as
    a source, and the rule it hands to [onUpdate] on each interaction. *)

Module Editor.

(** [interface Field] of ConditionalLogicEditor.tsx. *)
Record Field : Type := {
  id : string;
  field_name : string;
  field_label : string;
  field_type : string;
}.

(** [otherFields.filter(f => f.id !== fieldId)]. *)
Definition availableFields (fieldId : string) (otherFields : list Field)
  : list Field :=
  List.filter (fun f => negb (String.eqb (id f) fieldId)) otherFields.

Definition defaultLogic : ConditionalLogic :=
  {| enabled := false; action := show; sourceFieldId := "";
     operator := equals; value := "" |}.

(** [const logic = conditionalLogic || defaultLogic]. *)
Definition logic (conditionalLogic : option ConditionalLogic)
  : ConditionalLogic :=
  match conditionalLogic with
  | Some l => l
  | None => defaultLogic
  end.

(** [Partial<ConditionalLogic>]: each property present or left out. *)
Record Updates : Type := {
  upd_enabled : option bool;
  upd_action : option Action;
  upd_sourceFieldId : option string;
  upd_operator : option Operator;
  upd_value : option string;
}.

(** [{ ...logic, ...updates }]: a property of [updates] wins when present. *)
Definition spread (l : ConditionalLogic) (u : Updates) : ConditionalLogic :=
  {| enabled := default (enabled l) (upd_enabled u);
     action := default (action l) (upd_action u);
     sourceFieldId := default (sourceFieldId l) (upd_sourceFieldId u);
     operator := default (operator l) (upd_operator u);
     value := default (value l) (upd_value u) |}.

Definition no_updates : Updates :=
  {| upd_enabled := None; upd_action := None; upd_sourceFieldId := None;
     upd_operator := None; upd_value := None |}.

(** [handleToggle]: the rule passed to [onUpdate]. *)
Definition handleToggle (conditionalLogic : option ConditionalLogic)
    (on : bool) : ConditionalLogic :=
  if on
  then spread (logic conditionalLogic)
         {| upd_enabled := Some true; upd_action := None;
            upd_sourceFieldId := None; upd_operator := None;
            upd_value := None |}
  else spread (logic conditionalLogic)
         {| upd_enabled := Some false; upd_action := None;
            upd_sourceFieldId := None; upd_operator := None;
            upd_value := None |}.

(** [handleUpdate]: the rule passed to [onUpdate]. *)
Definition handleUpdate (conditionalLogic : option ConditionalLogic)
    (updates : Updates) : ConditionalLogic :=
  spread (logic conditionalLogic) updates.

(** The source select: [handleUpdate({ sourceFieldId: val })]. *)
Definition selectSource (conditionalLogic : option ConditionalLogic)
    (val : string) : ConditionalLogic :=
  handleUpdate conditionalLogic
    {| upd_enabled := None; upd_action := None;
       upd_sourceFieldId := Some val; upd_operator := None;
       upd_value := None |}.

(** The value input: [handleUpdate({ value: e.target.value })]. *)
Definition typeValue (conditionalLogic : option ConditionalLogic)
    (val : string) : ConditionalLogic :=
  handleUpdate conditionalLogic
    {| upd_enabled := None; upd_action := None;
       upd_sourceFieldId := None; upd_operator := None;
       upd_value := Some val |}.

(** [useState(!!conditionalLogic?.enabled)]. *)
Definition initialIsOpen (conditionalLogic : option ConditionalLogic) : bool :=
  match conditionalLogic with
  | Some l => enabled l
  | None => false
  end.

(** [if (availableFields.length === 0) return null]. *)
Definition rendersNothing (fieldId : string) (otherFields : list Field)
  : bool :=
  Nat.eqb (List.length (availableFields fieldId otherFields)) 0.

(** The value input is rendered under [logic.enabled && ...] and
    [logic.operator !== "not_empty" && ...]. *)
Definition showsValueInput (conditionalLogic : option ConditionalLogic)
  : bool :=
  enabled (logic conditionalLogic)
  && match operator (logic conditionalLogic) with
     | not_empty => false
     | _ => true
     end.

(** What the evaluator is given of an editor field. *)
Definition ref (f : Field) : FieldRef := Build_FieldRef (id f) (field_name f).

End Editor.

(** ** What the preview renders from the answers *)

Module PreviewRendering.

(** [const value = previewData[field.field_name] || ""]. *)
Definition fieldValue (previewData : gmap string JsValue)
    (field : FormPreview.Field) : JsValue :=
  js_or (get previewData (FormPreview.field_name field)) (JsString "").

(** The checkbox: [checked={value === true}]. *)
Definition checkboxChecked (previewData : gmap string JsValue)
    (field : FormPreview.Field) : bool :=
  strict_eq (fieldValue previewData field) (JsBoolean true).

(** A radio button: [checked={value === option}]. *)
Definition radioChecked (previewData : gmap string JsValue)
    (field : FormPreview.Field) (option : string) : bool :=
  strict_eq (fieldValue previewData field) (JsString option).

(** [const visibleFields = fields.filter(isFieldVisible)]. *)
Definition visibleFields (fields : list FormPreview.Field)
    (previewData : gmap string JsValue) : list FormPreview.Field :=
  List.filter (FormPreview.isFieldVisible fields previewData) fields.

End PreviewRendering.

(** ** Submitting the public form *)

Module PublicForm.

Record Field : Type := {
  id : string;
  field_name : string;
  field_type : string;
  field_label : string;
  placeholder : string;
  required : bool;
  options : option (list string);
  order_index : Z;
}.

Record Form : Type := {
  form_id : string;
  name : string;
  description : option string;
  is_public : bool;
}.

(** The row given to [insert]. *)
Record Submission : Type := {
  sub_form_id : string;
  submission_data : gmap string JsValue;
  user_agent : string;
}.

(** What [handleSubmit] leaves behind. *)
Inductive Outcome : Type :=
  | Ignored
  | ValidationError (description : string)
  | Submitted (row : Submission)
  | SubmissionFailed (row : Submission) (description : string).

(** [setFormData(prev => ({ ...prev, [fieldName]: value }))]. *)
Definition updateFormData (fieldName : string) (v : JsValue)
    (prev : gmap string JsValue) : gmap string JsValue :=
  <[fieldName := v]> prev.

(** The test of the validation loop:
    [field.required && !formData[field.field_name]]. *)
Definition missing (formData : gmap string JsValue) (field : Field) : bool :=
  required field && negb (ToBoolean (get formData (field_name field))).

(** The loop returns at the first field that fails the test. *)
Definition firstMissing (fields : list Field)
    (formData : gmap string JsValue) : option Field :=
  List.find (missing formData) fields.

(** [err.message || "Please try again"]. *)
Definition failureText (message : string) : string :=
  if String.eqb message "" then "Please try again" else message.

(** [handleSubmit].  [insert] stands for the database call: [None] when it
    succeeds, the error's message when it fails. *)
Definition handleSubmit (form : option Form) (fields : list Field)
    (formData : gmap string JsValue) (userAgent : string)
    (insert : Submission -> option string) : Outcome :=
  match form with
  | None => Ignored
  | Some form =>
      match firstMissing fields formData with
      | Some field =>
          ValidationError (field_label field +:+ " is required")
      | None =>
          let row := {| sub_form_id := form_id form;
                        submission_data := formData;
                        user_agent := userAgent |} in
          match insert row with
          | None => Submitted row
          | Some message => SubmissionFailed row (failureText message)
          end
      end
  end.

End PublicForm.

(** ** The builder's field list *)

Module FormBuilder.

(** An element of the [fields] state.  [loadForm] and [addField] keep each
    database row whole ([{ ...f, options: ... }]), so besides the eight
    properties of [interface Field] an element carries the row's
    [conditional_logic] column, which the interface does not declare:
    [None] is a row without the column, [Some None] is [null]. *)
Record Field : Type := {
  id : string;
  field_name : string;
  field_type : string;
  field_label : string;
  placeholder : string;
  required : bool;
  options : option (list string);
  order_index : Z;
  conditional_logic : option (option ConditionalLogic);
}.

(** [Partial<Field>]. *)
Record FieldUpdates : Type := {
  upd_id : option string;
  upd_field_name : option string;
  upd_field_type : option string;
  upd_field_label : option string;
  upd_placeholder : option string;
  upd_required : option bool;
  upd_options : option (option (list string));
  upd_order_index : option Z;
}.

(** [{ ...f, ...updates }]: what the update does not name is kept. *)
Definition spread (f : Field) (u : FieldUpdates) : Field :=
  {| id := default (id f) (upd_id u);
     field_name := default (field_name f) (upd_field_name u);
     field_type := default (field_type f) (upd_field_type u);
     field_label := default (field_label f) (upd_field_label u);
     placeholder := default (placeholder f) (upd_placeholder u);
     required := default (required f) (upd_required u);
     options := default (options f) (upd_options u);
     order_index := default (order_index f) (upd_order_index u);
     conditional_logic := conditional_logic f |}.

(** [updateField]: the field list afterwards.  [dbError] tells whether the
    database call failed, in which case [setFields] is not reached. *)
Definition updateField (dbError : bool) (fieldId : string)
    (updates : FieldUpdates) (fields : list Field) : list Field :=
  if dbError then fields
  else List.map (fun f => if String.eqb (id f) fieldId
                          then spread f updates else f) fields.

(** [deleteField]: the field list afterwards. *)
Definition deleteField (dbError : bool) (fieldId : string)
    (fields : list Field) : list Field :=
  if dbError then fields
  else List.filter (fun f => negb (String.eqb (id f) fieldId)) fields.

(** The row [addField] sends; [now] is [Date.now()]. *)
Record NewField : Type := {
  new_form_id : string;
  new_field_name : string;
  new_field_type : string;
  new_field_label : string;
  new_placeholder : string;
  new_required : bool;
  new_options : option (list string);
  new_order_index : Z;
}.

Definition newField (formId : string) (now : Z) (fields : list Field)
  : NewField :=
  {| new_form_id := formId;
     new_field_name := "field_" +:+ ToString (JsNumber now);
     new_field_type := "text";
     new_field_label := "New Field";
     new_placeholder := "";
     new_required := false;
     new_options := None;
     new_order_index := Z.of_nat (List.length fields) |}.

(** [addField]: the field list afterwards; [inserted] is the row the
    database returns, [None] when the call failed. *)
Definition addField (inserted : option Field) (fields : list Field)
  : list Field :=
  match inserted with
  | Some data => fields ++ [data]
  | None => fields
  end.

(** [<FormPreview fields={fields} />]: the same objects, seen through the
    preview's [Field]; the stored rule reaches the preview with them. *)
Definition previewProps (fields : list Field) : list FormPreview.Field :=
  List.map (fun f =>
    {| FormPreview.id := id f;
       FormPreview.field_name := field_name f;
       FormPreview.field_type := field_type f;
       FormPreview.field_label := field_label f;
       FormPreview.placeholder := placeholder f;
       FormPreview.required := required f;
       FormPreview.options := options f;
       FormPreview.order_index := order_index f;
       FormPreview.conditional_logic := conditional_logic f |}) fields.

End FormBuilder.

(** ** Rows made from the generated fields *)

Module Index.

(** An element of [aiData.fields], as the edge function's schema has it:
    [placeholder] and [options] may be left out. *)
Record GeneratedField : Type := {
  field_name : string;
  field_type : string;
  field_label : string;
  placeholder : option string;
  required : bool;
  options : option (list string);
}.

Record FieldRow : Type := {
  row_form_id : string;
  row_field_name : string;
  row_field_type : string;
  row_field_label : string;
  row_placeholder : string;
  row_required : bool;
  row_options : option (list string);
  row_order_index : Z;
}.

(** [aiData.fields.map((field, index) => ({ ... }))]. *)
Definition fieldsToInsert (formId : string) (aiFields : list GeneratedField)
  : list FieldRow :=
  imap (fun index field =>
    {| row_form_id := formId;
       row_field_name := field_name field;
       row_field_type := field_type field;
       row_field_label := field_label field;
       row_placeholder :=
         match placeholder field with
         | Some p => p
         | None => ""
         end;
       row_required := required field;
       row_options := options field;
       row_order_index := Z.of_nat index |}) aiFields.

End Index.

(** ** Exports of the analytics page *)

Module FormAnalytics.

Record Field : Type := {
  id : string;
  field_name : string;
  required : bool;
  field_label : string;
  field_type : string;
}.

Record Submission : Type := {
  sub_id : string;
  submission_data : gmap string JsValue;
  submitted_at : string;
  ip_address : option string;
}.

Definition quote : string := String (ascii_of_nat 34) EmptyString.

Definition newline : string := String (ascii_of_nat 10) EmptyString.

(** [Array.prototype.join] on strings. *)
Fixpoint join (sep : string) (l : list string) : string :=
  match l with
  | [] => ""
  | [x] => x
  | x :: rest => x +:+ sep +:+ join sep rest
  end.

(** [String(sub.submission_data[f.field_name] || "")]. *)
Definition cell (sub : Submission) (f : Field) : string :=
  ToString (js_or (get (submission_data sub) (field_name f)) (JsString "")).

(** [deleteSubmission]: the list afterwards. *)
Definition deleteSubmission (dbError : bool) (submissionId : string)
    (submissions : list Submission) : list Submission :=
  if dbError then submissions
  else List.filter (fun s => negb (String.eqb (sub_id s) submissionId))
         submissions.

Section CsvExport.

(** [new Date(s).toLocaleString()], which depends on the browser's locale. *)
Variable toLocaleString : string -> string.

Definition headers (fields : list Field) : list string :=
  "Submitted At" :: List.map field_label fields.

Definition rows (fields : list Field) (submissions : list Submission)
  : list (list string) :=
  List.map (fun sub =>
    toLocaleString (submitted_at sub) :: List.map (cell sub) fields)
    submissions.

(** [[headers, ...rows].map(row => row.map(cell => `"${cell}"`).join(","))
    .join("\n")]. *)
Definition csvText (table : list (list string)) : string :=
  join newline
    (List.map (fun row =>
       join "," (List.map (fun c => quote +:+ c +:+ quote) row)) table).

(** [exportToCSV]: the text put in the blob, [None] when the function
    returns at [submissions.length === 0]. *)
Definition exportToCSV (fields : list Field) (submissions : list Submission)
  : option string :=
  if Nat.eqb (List.length submissions) 0 then None
  else Some (csvText (headers fields :: rows fields submissions)).

End CsvExport.

(** The input area drawn under a label. *)
Inductive InputArea : Type :=
  | Box (top height : Z)
  | Rule (y : Z).

Record Placement : Type := {
  page : nat;
  label_y : Z;
  label_text : string;
  area : InputArea;
}.

(** One turn of [fields.forEach((field, index) => ...)] in
    [downloadFormPDF], with the page and [yPosition] it starts from. *)
Fixpoint layoutFrom (fields : list Field) (index : nat) (pageNo : nat)
    (yPosition : Z) : list Placement :=
  match fields with
  | [] => []
  | field :: rest =>
      let pageNo := if (yPosition >? 270)%Z then S pageNo else pageNo in
      let yPosition := if (yPosition >? 270)%Z then 30%Z else yPosition in
      let text := ToString (JsNumber (Z.of_nat index + 1)) +:+ ". "
                  +:+ field_label field
                  +:+ (if required field then " *" else "") in
      let labelY := yPosition in
      let yPosition := (yPosition + 8)%Z in
      if String.eqb (field_type field) "textarea"
      then {| page := pageNo; label_y := labelY; label_text := text;
              area := Box yPosition 25 |}
           :: layoutFrom rest (S index) pageNo (yPosition + 35)%Z
      else {| page := pageNo; label_y := labelY; label_text := text;
              area := Rule (yPosition + 5)%Z |}
           :: layoutFrom rest (S index) pageNo (yPosition + 20)%Z
  end.

(** The placements of [downloadFormPDF]: nothing without a form or without
    fields, otherwise the loop started at [yPosition = 65] on the first
    page. *)
Definition downloadFormPDF (formLoaded : bool) (fields : list Field)
  : option (list Placement) :=
  if negb formLoaded || Nat.eqb (List.length fields) 0 then None
  else Some (layoutFrom fields 0 0 65%Z).

End FormAnalytics.

(** ** Readings of the prose used to compare with the code *)

(** String form of a source value as the specification words it: a value is
    turned into its string, and only an absent one becomes the empty string. *)
Definition stringForm_spec (v : JsValue) : string :=
  match v with
  | JsUndefined => ""
  | _ => ToString v
  end.

(** String form with every falsy value sent to the empty string. *)
Definition stringForm_falsy_empty (v : JsValue) : string :=
  match v with
  | JsUndefined => ""
  | JsNull => ""
  | JsBoolean false => ""
  | JsNumber 0 => ""
  | JsString s => s
  | JsBoolean true => "true"
  | JsNumber n => ToString (JsNumber n)
  | JsBuiltin m => ToString (JsBuiltin m)
  end.

(** [t] occurs in [s]: [s] is some text, then [t], then some text. *)
Definition occurs_in (t s : string) : Prop :=
  exists pre post : string, s = pre +:+ t +:+ post.

(** A rule that cannot be evaluated: none, a disabled one, or one whose
    source field is not in the collection. *)
Definition unresolvable (logic : option ConditionalLogic)
    (fields : list FieldRef) : bool :=
  match logic with
  | None => true
  | Some l =>
      negb (enabled l) ||
      match findSource fields (sourceFieldId l) with
      | None => true
      | Some _ => false
      end
  end.

(** The same rule with another action. *)
Definition with_action (a : Action) (l : ConditionalLogic) : ConditionalLogic :=
  {| enabled := enabled l; action := a; sourceFieldId := sourceFieldId l;
     operator := operator l; value := value l |}.

(** ** What an answer set holds for a key *)

(** The key reads as truthy from the answer set: a truthy value is stored
    under it, or nothing is stored and the key is one every plain object
    inherits from [Object.prototype]. *)
Definition reads_truthy (formData : gmap string JsValue) (key : string)
  : Prop :=
  (exists v, formData !! key = Some v /\ ToBoolean v = true)
  \/ (formData !! key = None /\ exists m, inherited key = Some m).

(** ** Measures used to state facts about the exports *)

(** Number of times the character [c] occurs in [s]. *)
Fixpoint occurrences (c : ascii) (s : string) : nat :=
  match s with
  | EmptyString => 0
  | String a s' => (if Ascii.eqb a c then 1 else 0) + occurrences c s'
  end.

Definition line_feed : ascii := ascii_of_nat 10.

(** What the printable form shows for the field at position [index]
    (counted from 0): its label at a height between 30 and 270, reading
    "<index + 1>. <label>" with " *" appended when the field is required,
    and right under it a box 8 below and 25 high when the field is a
    textarea, a rule 13 below when it is anything else. *)
Definition drawn_for (index : nat) (f : FormAnalytics.Field)
    (p : FormAnalytics.Placement) : Prop :=
  (30 <= FormAnalytics.label_y p <= 270)%Z
  /\ FormAnalytics.label_text p
     = ToString (JsNumber (Z.of_nat index + 1)) +:+ ". "
       +:+ FormAnalytics.field_label f
       +:+ (if FormAnalytics.required f then " *" else "")
  /\ (FormAnalytics.field_type f = "textarea" ->
      FormAnalytics.area p
      = FormAnalytics.Box (FormAnalytics.label_y p + 8) 25)
  /\ (FormAnalytics.field_type f <> "textarea" ->
      FormAnalytics.area p
      = FormAnalytics.Rule (FormAnalytics.label_y p + 13)).

(** ** The scenario of the specification, used for concrete evaluations *)

Definition subscribe_field : FieldRef :=
  {| id := "f1"; field_name := "subscribe" |}.

Definition email_field : FieldRef :=
  {| id := "f2"; field_name := "email" |}.

Definition scenario_fields : list FieldRef := [subscribe_field; email_field].

(** A source field whose name is a key every plain object inherits. *)
Definition constructor_field : FieldRef :=
  {| id := "f1"; field_name := "constructor" |}.

(** [{enabled:true, action, sourceFieldId:"f1", operator, value}]. *)
Definition scenario_rule (a : Action) (op : Operator) (lit : string)
  : ConditionalLogic :=
  {| enabled := true; action := a; sourceFieldId := "f1";
     operator := op; value := lit |}.

(** The same rule, switched off. *)
Definition disabled_rule (a : Action) (op : Operator) (lit : string)
  : ConditionalLogic :=
  {| enabled := false; action := a; sourceFieldId := "f1";
     operator := op; value := lit |}.

(** A field of the preview named like a key every plain object inherits. *)
Definition constructor_preview_field : FormPreview.Field :=
  {| FormPreview.id := "f9";
     FormPreview.field_name := "constructor";
     FormPreview.field_type := "text";
     FormPreview.field_label := "Constructor";
     FormPreview.placeholder := "";
     FormPreview.required := true;
     FormPreview.options := None;
     FormPreview.order_index := 3;
     FormPreview.conditional_logic := None |}.

(** A public form with an optional field, two required ones, a required
    field named like an inherited key, and a last required field. *)
Definition newsletter_form : PublicForm.Form :=
  {| PublicForm.form_id := "form-1"; PublicForm.name := "Newsletter";
     PublicForm.description := None; PublicForm.is_public := true |}.

Definition public_field (fid fname ftype flabel : string) (req : bool)
    (position : Z) : PublicForm.Field :=
  {| PublicForm.id := fid; PublicForm.field_name := fname;
     PublicForm.field_type := ftype; PublicForm.field_label := flabel;
     PublicForm.placeholder := ""; PublicForm.required := req;
     PublicForm.options := None; PublicForm.order_index := position |}.

Definition nickname_input : PublicForm.Field :=
  public_field "f0" "nickname" "text" "Nickname" false 0.

Definition email_input : PublicForm.Field :=
  public_field "f2" "email" "email" "Email" true 1.

Definition subscribe_input : PublicForm.Field :=
  public_field "f1" "subscribe" "checkbox" "Subscribe" true 2.

Definition constructor_input : PublicForm.Field :=
  public_field "f9" "constructor" "text" "Constructor" true 3.

Definition phone_input : PublicForm.Field :=
  public_field "f3" "phone" "tel" "Phone" true 4.

(** A rule object as it may sit in the [jsonb] column: no [value] property. *)
Definition rule_without_value : Erased.RawLogic :=
  {| Erased.raw_enabled := JsBoolean true;
     Erased.raw_action := JsString "show";
     Erased.raw_sourceFieldId := JsString "f1";
     Erased.raw_operator := JsString "equals";
     Erased.raw_value := JsUndefined |}.

(** A rule object with an operator the [switch] does not know. *)
Definition rule_with_unknown_operator : Erased.RawLogic :=
  {| Erased.raw_enabled := JsBoolean true;
     Erased.raw_action := JsString "show";
     Erased.raw_sourceFieldId := JsString "f1";
     Erased.raw_operator := JsString "greater_than";
     Erased.raw_value := JsString "3" |}.

(** A field of the preview whose rule points at the field itself. *)
Definition self_referencing_field : FormPreview.Field :=
  {| FormPreview.id := "f1";
     FormPreview.field_name := "subscribe";
     FormPreview.field_type := "text";
     FormPreview.field_label := "Subscribe?";
     FormPreview.placeholder := "";
     FormPreview.required := false;
     FormPreview.options := None;
     FormPreview.order_index := 0;
     FormPreview.conditional_logic :=
       Some (Some (scenario_rule show equals "yes")) |}.

(** ** Facts about the string operations *)

Section StringFacts.

Lemma startsWith_spec (s t : string) :
  startsWith s t = true <-> exists post : string, s = t +:+ post.
Proof.
  revert s. induction t as [|b t IH]; intros s; simpl.
  - split; [intros _; exists s; reflexivity | intros _; reflexivity].
  - destruct s as [|a s]; simpl.
    + split; [discriminate | intros [post H]; discriminate].
    + rewrite andb_true_iff, Ascii.eqb_eq, IH. split.
      * intros [-> [post ->]]. exists post. reflexivity.
      * intros [post H]. injection H as -> ->. split; [reflexivity | eauto].
Qed.

Lemma includes_occurs (s t : string) :
  includes s t = true <-> occurs_in t s.
Proof.
  unfold occurs_in. induction s as [|a s IH].
  - simpl. rewrite orb_false_r, startsWith_spec. split.
    + intros [post H]. exists "", post. exact H.
    + intros [pre [post H]]. destruct pre; [exists post; exact H | discriminate].
  - cbn [includes]. rewrite orb_true_iff, IH, startsWith_spec. split.
    + intros [[post H] | [pre [post H]]].
      * exists "", post. exact H.
      * exists (String a pre), post. simpl. rewrite H. reflexivity.
    + intros [pre [post H]]. destruct pre as [|c pre].
      * left. exists post. exact H.
      * right. simpl in H. injection H as _ H. exists pre, post. exact H.
Qed.

Lemma includes_empty (s : string) : includes s "" = true.
Proof. destruct s; reflexivity. Qed.

End StringFacts.

(** ** Facts about the JavaScript fragment *)

Section ValueFacts.

Lemma strict_eq_true (a b : JsValue) : strict_eq a b = true <-> a = b.
Proof.
  destruct a, b; simpl; try (split; [discriminate | congruence]);
    try (split; reflexivity).
  - rewrite Bool.eqb_true_iff. split; congruence.
  - rewrite Z.eqb_eq. split; congruence.
  - rewrite String.eqb_eq. split; congruence.
  - rewrite bool_decide_eq_true. split; congruence.
Qed.

Lemma strict_eq_false (a b : JsValue) : strict_eq a b = false <-> a <> b.
Proof.
  rewrite <- strict_eq_true. destruct (strict_eq a b); split; congruence.
Qed.

(** [String(v || "")] sends exactly the falsy values to the empty string. *)
Lemma or_empty_string_form (v : JsValue) :
  ToString (js_or v (JsString "")) = stringForm_falsy_empty v.
Proof.
  destruct v as [| |[|]|[|p|p]|[|c s]|m]; reflexivity.
Qed.

Lemma get_empty (key : string) :
  inherited key = None -> get ∅ key = JsUndefined.
Proof. intros H. unfold get. rewrite lookup_empty, H. reflexivity. Qed.

Lemma get_missing_inherited (formData : gmap string JsValue) (key : string)
    (m : PrototypeMember) :
  formData !! key = None -> inherited key = Some m ->
  get formData key = JsBuiltin m.
Proof. intros H1 H2. unfold get. rewrite H1, H2. reflexivity. Qed.

Lemma get_stored (formData : gmap string JsValue) (key : string)
    (v : JsValue) :
  formData !! key = Some v -> get formData key = v.
Proof. intros H. unfold get. rewrite H. reflexivity. Qed.

End ValueFacts.

(** ** Facts about source-field resolution *)

Section Resolution.

Lemma findSource_In (fields : list FieldRef) (sid : string) (sf : FieldRef) :
  findSource fields sid = Some sf -> In sf fields /\ id sf = sid.
Proof.
  unfold findSource. intros H. apply List.find_some in H.
  destruct H as [Hin Heq]. apply String.eqb_eq in Heq. auto.
Qed.

Lemma findSource_None (fields : list FieldRef) (sid : string) :
  findSource fields sid = None <-> (forall f, In f fields -> id f <> sid).
Proof.
  unfold findSource. induction fields as [|g fields IH]; simpl.
  - split; [intros _ f [] | reflexivity].
  - destruct (String.eqb_spec (id g) sid) as [Heq|Hne].
    + split; [discriminate | intros H; exfalso; apply (H g); auto].
    + rewrite IH. split.
      * intros H f [<-|Hin]; auto.
      * intros H f Hin. apply H. auto.
Qed.

Lemma findSource_resolves (fields : list FieldRef) (sid : string) :
  (exists f, In f fields /\ id f = sid) ->
  exists sf, findSource fields sid = Some sf.
Proof.
  intros [f [Hin Hid]]. destruct (findSource fields sid) as [sf|] eqn:E.
  - eauto.
  - exfalso. rewrite findSource_None in E. exact (E f Hin Hid).
Qed.

(** Under erased types the lookup of a string id is the typed lookup. *)
Lemma erased_findSource (fields : list FieldRef) (sid : string) :
  Erased.findSource fields (JsString sid) = findSource fields sid.
Proof. reflexivity. Qed.

End Resolution.

(** ** The evaluator on a rule that resolves *)

Section Evaluator.

Variables (formData : gmap string JsValue) (fields : list FieldRef).

Lemma evaluate_none : evaluateConditionalLogic None formData fields = true.
Proof. reflexivity. Qed.

Lemma evaluate_disabled (l : ConditionalLogic) :
  enabled l = false ->
  evaluateConditionalLogic (Some l) formData fields = true.
Proof. intros H. unfold evaluateConditionalLogic. rewrite H. reflexivity. Qed.

Lemma evaluate_unresolved (l : ConditionalLogic) :
  findSource fields (sourceFieldId l) = None ->
  evaluateConditionalLogic (Some l) formData fields = true.
Proof.
  intros H. unfold evaluateConditionalLogic. rewrite H.
  destruct (enabled l); reflexivity.
Qed.

(** Past the two guards the result is the condition, seen through the action. *)
Lemma evaluate_resolved (l : ConditionalLogic) (sf : FieldRef) :
  enabled l = true ->
  findSource fields (sourceFieldId l) = Some sf ->
  evaluateConditionalLogic (Some l) formData fields =
    let met := conditionMet (operator l) (get formData (field_name sf)) (value l) in
    match action l with show => met | hide => negb met end.
Proof.
  intros He Hf. unfold evaluateConditionalLogic. rewrite He, Hf. reflexivity.
Qed.

Lemma evaluate_unresolvable (logic : option ConditionalLogic) :
  unresolvable logic fields = true ->
  evaluateConditionalLogic logic formData fields = true.
Proof.
  destruct logic as [l|]; [|reflexivity]. unfold unresolvable. intros H.
  destruct (enabled l) eqn:He; [|apply evaluate_disabled, He].
  destruct (findSource fields (sourceFieldId l)) eqn:Hf; [discriminate|].
  apply evaluate_unresolved, Hf.
Qed.

(** A well-typed rule runs to the same boolean once its types are erased. *)
Lemma erased_agrees (logic : option ConditionalLogic) :
  Erased.evaluateConditionalLogic (Erased.erase <$> logic) formData fields =
  Erased.Returns (evaluateConditionalLogic logic formData fields).
Proof.
  destruct logic as [l|]; [|reflexivity].
  unfold Erased.evaluateConditionalLogic, evaluateConditionalLogic. simpl.
  destruct (enabled l); simpl; [|reflexivity].
  rewrite erased_findSource.
  destruct (findSource fields (sourceFieldId l)) as [sf|]; [|reflexivity].
  destruct (operator l), (action l); reflexivity.
Qed.

End Evaluator.

Lemma with_action_resolved (a : Action) (l : ConditionalLogic)
    (formData : gmap string JsValue) (fields : list FieldRef) (sf : FieldRef) :
  enabled l = true ->
  findSource fields (sourceFieldId l) = Some sf ->
  evaluateConditionalLogic (Some (with_action a l)) formData fields =
    let met := conditionMet (operator l) (get formData (field_name sf)) (value l) in
    match a with show => met | hide => negb met end.
Proof.
  intros He Hf. rewrite (evaluate_resolved _ _ (with_action a l) sf); auto.
Qed.

(** ** Rules that are absent or switched off *)

(** C1. For every answer set and every field collection, when the rule is
    absent ([null]) or its [enabled] flag is false, the evaluator returns
    true; and so does the preview's [isFieldVisible] for a field carrying such
    a rule, whatever has been typed so far. *)
Theorem no_rule_or_disabled_is_visible
    (logic : option ConditionalLogic) (formData : gmap string JsValue)
    (fields : list FieldRef) :
  (logic = None \/ exists l, logic = Some l /\ enabled l = false) ->
  evaluateConditionalLogic logic formData fields = true
  /\ (forall (previewFields : list FormPreview.Field)
             (field : FormPreview.Field),
        FormPreview.or_null (FormPreview.conditional_logic field) = logic ->
        FormPreview.isFieldVisible previewFields formData field = true).
Proof.
  intros H.
  assert (Hall : forall fs, evaluateConditionalLogic logic formData fs = true).
  { intros fs. destruct H as [-> | [l [-> Hl]]].
    - apply evaluate_none.
    - apply evaluate_disabled, Hl. }
  split; [apply Hall|].
  intros previewFields field Hrule. unfold FormPreview.isFieldVisible.
  rewrite Hrule. apply Hall.
Qed.

Lemma no_rule_or_disabled_is_visible_witness :
  evaluateConditionalLogic (Some (disabled_rule hide not_empty ""))
    {[ "subscribe" := JsString "Yes" ]} scenario_fields = true.
Proof.
  apply (no_rule_or_disabled_is_visible
           (Some (disabled_rule hide not_empty ""))
           {[ "subscribe" := JsString "Yes" ]} scenario_fields).
  right. exists (disabled_rule hide not_empty ""). split; reflexivity.
Defined.

(** ** Rules whose source field is gone *)

(** C2. For every enabled rule whose [sourceFieldId] matches no field id of
    the supplied collection, the evaluator returns true, whatever the action,
    the operator, the comparison literal and the answer set. *)
Theorem missing_source_is_visible
    (l : ConditionalLogic) (formData : gmap string JsValue)
    (fields : list FieldRef) :
  enabled l = true ->
  (forall f, In f fields -> id f <> sourceFieldId l) ->
  evaluateConditionalLogic (Some l) formData fields = true.
Proof.
  intros _ Hmiss. apply evaluate_unresolved. apply findSource_None, Hmiss.
Qed.

Lemma missing_source_is_visible_witness :
  evaluateConditionalLogic (Some (scenario_rule show equals "yes"))
    {[ "email" := JsString "a@b.c" ]} [email_field] = true.
Proof.
  apply missing_source_is_visible.
  - reflexivity.
  - intros f [<- | []]. discriminate.
Defined.

(** ** No failure on well-typed rules *)

(** C3, as the code has it. For every rule of the declared type (a
    self-referencing one included), every answer set and every field
    collection, the function body returns a boolean and throws nothing; and
    when the rule is absent, disabled, or names a source field that is not in
    the collection, that boolean is true. *)
Theorem typed_rule_returns_boolean
    (logic : option ConditionalLogic) (formData : gmap string JsValue)
    (fields : list FieldRef) :
  Erased.evaluateConditionalLogic (Erased.erase <$> logic) formData fields =
    Erased.Returns (evaluateConditionalLogic logic formData fields)
  /\ (unresolvable logic fields = true ->
      evaluateConditionalLogic logic formData fields = true).
Proof.
  split.
  - apply erased_agrees.
  - apply evaluate_unresolvable.
Qed.

Lemma typed_rule_returns_boolean_witness :
  unresolvable (Some (scenario_rule hide contains "x")) [email_field] = true
  /\ Erased.evaluateConditionalLogic
       (Erased.erase <$> Some (scenario_rule hide contains "x"))
       {[ "email" := JsString "x@y.z" ]} [email_field]
     = Erased.Returns
         (evaluateConditionalLogic (Some (scenario_rule hide contains "x"))
            {[ "email" := JsString "x@y.z" ]} [email_field])
  /\ evaluateConditionalLogic (Some (scenario_rule hide contains "x"))
       {[ "email" := JsString "x@y.z" ]} [email_field] = true.
Proof.
  split; [reflexivity|].
  destruct (typed_rule_returns_boolean
              (Some (scenario_rule hide contains "x"))
              {[ "email" := JsString "x@y.z" ]} [email_field])
    as [Hrun Htrue].
  split; [exact Hrun | exact (Htrue eq_refl)].
Defined.

(** C3, as stated, fails: a rule object that lacks its [value] property makes
    [targetValue.toLowerCase()] throw, so the body does not return a boolean
    on every rule. *)
Lemma malformed_rule_throws :
  ~ (forall (logic : option Erased.RawLogic) (formData : gmap string JsValue)
            (fields : list FieldRef),
        exists b : bool,
          Erased.evaluateConditionalLogic logic formData fields
          = Erased.Returns b).
Proof.
  intros H.
  destruct (H (Some rule_without_value) ∅ scenario_fields) as [b Hb].
  vm_compute in Hb. discriminate.
Qed.

(** ** Show and hide *)

(** C4, as the code has it. For every enabled rule whose source field
    resolves, evaluating it with action hide returns the negation of
    evaluating it with action show, on the same answer set and fields. *)
Theorem hide_negates_show
    (l : ConditionalLogic) (formData : gmap string JsValue)
    (fields : list FieldRef) :
  enabled l = true ->
  (exists f, In f fields /\ id f = sourceFieldId l) ->
  evaluateConditionalLogic (Some (with_action hide l)) formData fields =
  negb (evaluateConditionalLogic (Some (with_action show l)) formData fields).
Proof.
  intros He Hres. apply findSource_resolves in Hres. destruct Hres as [sf Hf].
  rewrite (with_action_resolved hide l formData fields sf He Hf).
  rewrite (with_action_resolved show l formData fields sf He Hf).
  reflexivity.
Qed.

Lemma hide_negates_show_witness :
  evaluateConditionalLogic
    (Some (with_action hide (scenario_rule show equals "yes")))
    {[ "subscribe" := JsString "Yes" ]} scenario_fields =
  negb (evaluateConditionalLogic
          (Some (with_action show (scenario_rule show equals "yes")))
          {[ "subscribe" := JsString "Yes" ]} scenario_fields).
Proof.
  apply hide_negates_show.
  - reflexivity.
  - exists subscribe_field. split; [left; reflexivity | reflexivity].
Defined.

(** C4, as stated, fails: a disabled rule is visible under both actions. *)
Lemma hide_does_not_negate_disabled_rule :
  ~ (forall (l : ConditionalLogic) (formData : gmap string JsValue)
            (fields : list FieldRef),
        evaluateConditionalLogic (Some (with_action hide l)) formData fields =
        negb (evaluateConditionalLogic (Some (with_action show l))
                formData fields)).
Proof.
  intros H.
  specialize (H (disabled_rule show equals "yes") ∅ scenario_fields).
  vm_compute in H. discriminate.
Qed.

(** ** The operators *)

Section Operators.

Lemma equals_iff (v : JsValue) (lit : string) :
  conditionMet equals v lit = true <->
  toLowerCase (stringForm_falsy_empty v) = toLowerCase lit.
Proof.
  unfold conditionMet. rewrite or_empty_string_form. apply String.eqb_eq.
Qed.

Lemma contains_iff (v : JsValue) (lit : string) :
  conditionMet contains v lit = true <->
  occurs_in (toLowerCase lit) (toLowerCase (stringForm_falsy_empty v)).
Proof.
  unfold conditionMet. rewrite or_empty_string_form. apply includes_occurs.
Qed.

Lemma not_empty_iff (v : JsValue) (lit : string) :
  conditionMet not_empty v lit = true <->
  v <> JsUndefined /\ v <> JsNull /\ v <> JsString "" /\ v <> JsBoolean false.
Proof.
  unfold conditionMet. rewrite !andb_true_iff, !negb_true_iff, !strict_eq_false.
  tauto.
Qed.

End Operators.

(** C5, as the code has it. For every enabled rule with operator equals whose
    source field resolves, the condition holds exactly when the lower-cased
    string form of the source value equals the lower-cased literal, where a
    source value that reads as [undefined] (an absent one) and every other
    falsy one ([null], [false], [0], the empty string) has the empty string
    as its form; with action show, literal "yes" and answer "Yes" the
    evaluator returns true, and with answer "no" it returns false. *)
Theorem equals_compares_lowercased_forms
    (l : ConditionalLogic) (formData : gmap string JsValue)
    (fields : list FieldRef) (sf : FieldRef) :
  enabled l = true ->
  operator l = equals ->
  findSource fields (sourceFieldId l) = Some sf ->
  (conditionMet (operator l) (get formData (field_name sf)) (value l) = true <->
     toLowerCase (stringForm_falsy_empty (get formData (field_name sf)))
     = toLowerCase (value l))
  /\ (evaluateConditionalLogic (Some (with_action show l)) formData fields = true
      <-> toLowerCase (stringForm_falsy_empty (get formData (field_name sf)))
          = toLowerCase (value l))
  /\ (ToBoolean (get formData (field_name sf)) = false ->
      stringForm_falsy_empty (get formData (field_name sf)) = "")
  /\ (value l = "yes" -> get formData (field_name sf) = JsString "Yes" ->
      evaluateConditionalLogic (Some (with_action show l)) formData fields
      = true)
  /\ (value l = "yes" -> get formData (field_name sf) = JsString "no" ->
      evaluateConditionalLogic (Some (with_action show l)) formData fields
      = false).
Proof.
  intros He Ho Hf.
  rewrite (with_action_resolved show l formData fields sf He Hf). cbv zeta.
  rewrite Ho.
  split; [apply equals_iff|]. split; [apply equals_iff|].
  split; [intros Hfalsy;
          destruct (get formData (field_name sf)) as [| |[|]|[|p|p]|[|c s]|m];
          try reflexivity; discriminate|].
  split; intros -> ->; reflexivity.
Qed.

Lemma equals_compares_lowercased_forms_witness :
  evaluateConditionalLogic
    (Some (with_action show (scenario_rule show equals "yes")))
    {[ "subscribe" := JsString "Yes" ]} scenario_fields = true
  /\ evaluateConditionalLogic
       (Some (with_action show (scenario_rule show equals "yes")))
       {[ "subscribe" := JsString "no" ]} scenario_fields = false.
Proof.
  split.
  - apply (equals_compares_lowercased_forms (scenario_rule show equals "yes")
             {[ "subscribe" := JsString "Yes" ]} scenario_fields
             subscribe_field eq_refl eq_refl eq_refl); reflexivity.
  - apply (equals_compares_lowercased_forms (scenario_rule show equals "yes")
             {[ "subscribe" := JsString "no" ]} scenario_fields
             subscribe_field eq_refl eq_refl eq_refl); reflexivity.
Defined.

(** C5, as stated, fails: only an absent value is said to become the empty
    string, yet an unticked checkbox ([false]) compared with the literal
    "false" does not meet the condition, because [false || ""] is [""]. *)
Lemma equals_false_is_not_its_string :
  ~ (forall (l : ConditionalLogic) (formData : gmap string JsValue)
            (fields : list FieldRef) (sf : FieldRef),
        enabled l = true ->
        operator l = equals ->
        findSource fields (sourceFieldId l) = Some sf ->
        (evaluateConditionalLogic (Some (with_action show l)) formData fields
         = true
         <-> toLowerCase (stringForm_spec (get formData (field_name sf)))
             = toLowerCase (value l))).
Proof.
  intros H.
  specialize (H (scenario_rule show equals "false")
                {[ "subscribe" := JsBoolean false ]} scenario_fields
                subscribe_field eq_refl eq_refl eq_refl).
  destruct H as [_ H]. specialize (H eq_refl).
  vm_compute in H. discriminate.
Qed.

(** The not_empty condition on the value read, and what follows for a
    source field that was never answered and whose name is not a key of
    [Object.prototype]. *)
Lemma not_empty_on_value_read
    (l : ConditionalLogic) (formData : gmap string JsValue)
    (fields : list FieldRef) (sf : FieldRef) :
  enabled l = true ->
  operator l = not_empty ->
  findSource fields (sourceFieldId l) = Some sf ->
  (conditionMet (operator l) (get formData (field_name sf)) (value l) = true <->
     get formData (field_name sf) <> JsUndefined
     /\ get formData (field_name sf) <> JsNull
     /\ get formData (field_name sf) <> JsString ""
     /\ get formData (field_name sf) <> JsBoolean false)
  /\ (evaluateConditionalLogic (Some (with_action show l)) formData fields
      = conditionMet (operator l) (get formData (field_name sf)) (value l))
  /\ (inherited (field_name sf) = None ->
      evaluateConditionalLogic (Some (with_action show l)) ∅ fields = false
      /\ evaluateConditionalLogic (Some (with_action hide l)) ∅ fields = true).
Proof.
  intros He Ho Hf.
  rewrite !(with_action_resolved _ l _ fields sf He Hf). cbv zeta.
  rewrite Ho.
  split; [apply not_empty_iff|]. split; [reflexivity|].
  intros Hown. rewrite (get_empty _ Hown). split; reflexivity.
Qed.

(** C6, at the input where the code departs from it. The source field is
    named "constructor" and the answer set is empty: the lookup finds the
    member every plain object inherits, which is none of the four excluded
    values, so the condition is met; action show gives true and action hide
    gives false, where the claim has false and true. Once an answer is
    stored under that name the stored value is read: the empty text gives
    false under show, a non-empty text gives true. *)
Theorem not_empty_on_untouched_constructor_field :
  findSource [constructor_field] "f1" = Some constructor_field
  /\ get ∅ (field_name constructor_field) = JsBuiltin m_constructor
  /\ evaluateConditionalLogic (Some (scenario_rule show not_empty ""))
       ∅ [constructor_field] = true
  /\ evaluateConditionalLogic (Some (scenario_rule hide not_empty ""))
       ∅ [constructor_field] = false
  /\ evaluateConditionalLogic (Some (scenario_rule show not_empty ""))
       {[ "constructor" := JsString "" ]} [constructor_field] = false
  /\ evaluateConditionalLogic (Some (scenario_rule show not_empty ""))
       {[ "constructor" := JsString "Acme" ]} [constructor_field] = true.
Proof. repeat split; reflexivity. Qed.

(** C7. For every source value and every comparison literal, the condition
    computed for not_equals is the complement of the one computed for equals;
    hence two enabled rules that differ in that operator only, on a source
    field that resolves, give opposite results. *)
Theorem not_equals_complements_equals (v : JsValue) (lit : string) :
  conditionMet not_equals v lit = negb (conditionMet equals v lit)
  /\ (forall (a : Action) (sid : string) (formData : gmap string JsValue)
             (fields : list FieldRef) (sf : FieldRef),
        findSource fields sid = Some sf ->
        get formData (field_name sf) = v ->
        evaluateConditionalLogic
          (Some {| enabled := true; action := a; sourceFieldId := sid;
                   operator := not_equals; value := lit |}) formData fields =
        negb (evaluateConditionalLogic
                (Some {| enabled := true; action := a; sourceFieldId := sid;
                         operator := equals; value := lit |}) formData fields)).
Proof.
  split; [reflexivity|].
  intros a sid formData fields sf Hf Hv.
  unfold evaluateConditionalLogic. cbn [enabled sourceFieldId negb].
  rewrite Hf. cbn [operator action value]. rewrite Hv.
  destruct a; reflexivity.
Qed.

Lemma not_equals_complements_equals_witness :
  evaluateConditionalLogic (Some (scenario_rule hide not_equals "yes"))
    {[ "subscribe" := JsString "YES" ]} scenario_fields =
  negb (evaluateConditionalLogic (Some (scenario_rule hide equals "yes"))
          {[ "subscribe" := JsString "YES" ]} scenario_fields).
Proof.
  apply (not_equals_complements_equals (JsString "YES") "yes")
    with (sf := subscribe_field); reflexivity.
Defined.

(** C8, as the code has it. For every enabled rule with operator contains
    whose source field resolves, the condition holds exactly when the
    lower-cased literal occurs in the lower-cased string form of the source
    value, a falsy source value having the empty string as its form; the
    source value "Blue Whale" with literal "whale" meets the condition. *)
Theorem contains_is_lowercased_substring
    (l : ConditionalLogic) (formData : gmap string JsValue)
    (fields : list FieldRef) (sf : FieldRef) :
  enabled l = true ->
  operator l = contains ->
  findSource fields (sourceFieldId l) = Some sf ->
  (conditionMet (operator l) (get formData (field_name sf)) (value l) = true <->
     occurs_in (toLowerCase (value l))
       (toLowerCase (stringForm_falsy_empty (get formData (field_name sf)))))
  /\ (evaluateConditionalLogic (Some (with_action show l)) formData fields = true
      <-> occurs_in (toLowerCase (value l))
            (toLowerCase (stringForm_falsy_empty (get formData (field_name sf)))))
  /\ (value l = "whale" -> get formData (field_name sf) = JsString "Blue Whale" ->
      conditionMet (operator l) (get formData (field_name sf)) (value l) = true).
Proof.
  intros He Ho Hf.
  rewrite (with_action_resolved show l formData fields sf He Hf). cbv zeta.
  rewrite Ho.
  split; [apply contains_iff|]. split; [apply contains_iff|].
  intros -> ->. reflexivity.
Qed.

Lemma contains_is_lowercased_substring_witness :
  conditionMet contains
    (get {[ "subscribe" := JsString "Blue Whale" ]} "subscribe") "whale" = true.
Proof.
  apply (contains_is_lowercased_substring (scenario_rule show contains "whale")
           {[ "subscribe" := JsString "Blue Whale" ]} scenario_fields
           subscribe_field eq_refl eq_refl eq_refl); reflexivity.
Defined.

(** C8, as stated, fails: the string form of [false] is "false", which
    contains "als", yet the code tests the literal against [""]. *)
Lemma contains_false_is_not_its_string :
  ~ (forall (l : ConditionalLogic) (formData : gmap string JsValue)
            (fields : list FieldRef) (sf : FieldRef),
        enabled l = true ->
        operator l = contains ->
        findSource fields (sourceFieldId l) = Some sf ->
        (evaluateConditionalLogic (Some (with_action show l)) formData fields
         = true
         <-> occurs_in (toLowerCase (value l))
               (toLowerCase (stringForm_spec (get formData (field_name sf)))))).
Proof.
  intros H.
  specialize (H (scenario_rule show contains "als")
                {[ "subscribe" := JsBoolean false ]} scenario_fields
                subscribe_field eq_refl eq_refl eq_refl).
  destruct H as [_ H].
  assert (Hocc : occurs_in (toLowerCase "als")
                   (toLowerCase (stringForm_spec
                      (get {[ "subscribe" := JsBoolean false ]} "subscribe")))).
  { exists "f", "e". reflexivity. }
  specialize (H Hocc). vm_compute in H. discriminate.
Qed.

(** ** What the evaluator reads of the answer set *)

(** C9. For every rule and field collection, two answer sets that agree on
    the entry keyed by the resolved source field's name, in presence and in
    value, get the same result, however they differ on other keys. *)
Theorem result_depends_only_on_source_entry
    (logic : option ConditionalLogic) (fields : list FieldRef)
    (answers1 answers2 : gmap string JsValue) :
  (forall l sf, logic = Some l ->
                findSource fields (sourceFieldId l) = Some sf ->
                answers1 !! field_name sf = answers2 !! field_name sf) ->
  evaluateConditionalLogic logic answers1 fields =
  evaluateConditionalLogic logic answers2 fields.
Proof.
  intros Hagree. destruct logic as [l|]; [|reflexivity].
  unfold evaluateConditionalLogic.
  destruct (negb (enabled l)); [reflexivity|].
  destruct (findSource fields (sourceFieldId l)) as [sf|] eqn:Hf; [|reflexivity].
  unfold get. rewrite (Hagree l sf eq_refl Hf). reflexivity.
Qed.

Lemma result_depends_only_on_source_entry_witness :
  evaluateConditionalLogic (Some (scenario_rule show equals "yes"))
    {[ "subscribe" := JsString "Yes"; "email" := JsString "a@b.c" ]}
    scenario_fields =
  evaluateConditionalLogic (Some (scenario_rule show equals "yes"))
    {[ "subscribe" := JsString "Yes"; "phone" := JsNumber 5 ]}
    scenario_fields.
Proof.
  apply result_depends_only_on_source_entry.
  intros l sf Hl Hf. injection Hl as <-. vm_compute in Hf.
  injection Hf as <-. reflexivity.
Defined.

(** ** The empty literal *)

(** C10. For every enabled rule with operator contains and an empty literal
    whose source field resolves, the condition is met for every source value,
    an absent one included; so with action show the field is visible and with
    action hide it is hidden, for every answer set. *)
Theorem contains_empty_literal_always_met
    (l : ConditionalLogic) (formData : gmap string JsValue)
    (fields : list FieldRef) :
  enabled l = true ->
  operator l = contains ->
  value l = "" ->
  (exists f, In f fields /\ id f = sourceFieldId l) ->
  (forall v : JsValue, conditionMet (operator l) v (value l) = true)
  /\ evaluateConditionalLogic (Some (with_action show l)) formData fields = true
  /\ evaluateConditionalLogic (Some (with_action hide l)) formData fields = false.
Proof.
  intros He Ho Hv Hres. apply findSource_resolves in Hres.
  destruct Hres as [sf Hf].
  assert (Hmet : forall v, conditionMet (operator l) v (value l) = true).
  { intros v. rewrite Ho, Hv. apply includes_empty. }
  rewrite !(with_action_resolved _ l formData fields sf He Hf). cbv zeta.
  rewrite Hmet. auto.
Qed.

Lemma contains_empty_literal_always_met_witness :
  evaluateConditionalLogic
    (Some (with_action show (scenario_rule show contains "")))
    ∅ scenario_fields = true
  /\ evaluateConditionalLogic
       (Some (with_action hide (scenario_rule show contains "")))
       ∅ scenario_fields = false.
Proof.
  apply (contains_empty_literal_always_met (scenario_rule show contains "")
           ∅ scenario_fields eq_refl eq_refl eq_refl).
  exists subscribe_field. split; [left; reflexivity | reflexivity].
Defined.

(** ** Sample evaluations *)

Example lower_sample : toLowerCase "Blue Whale 42!" = "blue whale 42!".
Proof. reflexivity. Qed.

Example tostring_sample :
  ToString (JsNumber 0) = "0" /\ ToString (JsNumber (-120)) = "-120".
Proof. split; reflexivity. Qed.

Example includes_sample :
  includes "blue whale" "whale" = true /\ includes "blue whale" "wheel" = false.
Proof. split; reflexivity. Qed.

Example scenario_yes :
  evaluateConditionalLogic (Some (scenario_rule show equals "yes"))
    {[ "subscribe" := JsString "Yes" ]} scenario_fields = true.
Proof. reflexivity. Qed.

Example scenario_no :
  evaluateConditionalLogic (Some (scenario_rule show equals "yes"))
    {[ "subscribe" := JsString "no" ]} scenario_fields = false.
Proof. reflexivity. Qed.

Example unknown_operator_hides :
  Erased.evaluateConditionalLogic (Some rule_with_unknown_operator)
    {[ "subscribe" := JsString "5" ]} scenario_fields = Erased.Returns false.
Proof. reflexivity. Qed.

Example self_reference_evaluates :
  FormPreview.isFieldVisible [self_referencing_field] ∅ self_referencing_field
    = false
  /\ FormPreview.isFieldVisible [self_referencing_field]
       (FormPreview.updatePreviewData "subscribe" (JsString "YES") ∅)
       self_referencing_field = true.
Proof. split; reflexivity. Qed.

(** ** Further facts about the evaluator *)

Section ErasedEvaluator.

Import Erased.

Lemma call_toLowerCase_throws (v : JsValue) :
  call_toLowerCase v = Throws_TypeError <-> (forall s, v <> JsString s).
Proof.
  destruct v; simpl; split; try congruence; try discriminate.
  intros H. exfalso. exact (H s eq_refl).
Qed.

Lemma erased_conditionMet_throws (op v t : JsValue) :
  Erased.conditionMet op v t = Throws_TypeError <->
  (op = JsString "equals" \/ op = JsString "not_equals"
   \/ op = JsString "contains")
  /\ (forall s, t <> JsString s).
Proof.
  unfold Erased.conditionMet.
  destruct (strict_eq op (JsString "equals")) eqn:E1.
  { apply strict_eq_true in E1. subst op.
    destruct t; simpl; split; try discriminate; try (intros _; split; auto; congruence).
    intros [_ H]. exfalso. exact (H s eq_refl). }
  destruct (strict_eq op (JsString "not_equals")) eqn:E2.
  { apply strict_eq_true in E2. subst op.
    destruct t; simpl; split; try discriminate; try (intros _; split; auto; congruence).
    intros [_ H]. exfalso. exact (H s eq_refl). }
  destruct (strict_eq op (JsString "contains")) eqn:E3.
  { apply strict_eq_true in E3. subst op.
    destruct t; simpl; split; try discriminate; try (intros _; split; auto; congruence).
    intros [_ H]. exfalso. exact (H s eq_refl). }
  apply strict_eq_false in E1, E2, E3.
  destruct (strict_eq op (JsString "not_empty")); split; try discriminate;
    intros [[H | [H | H]] _]; contradiction.
Qed.

End ErasedEvaluator.

(** X1. With the types erased, the body throws exactly when the rule is
    switched on, its source field resolves, the operator is equals,
    not_equals or contains, and the stored [value] is not a string; in every
    other case it returns a boolean. *)
Theorem erased_body_throws_exactly_when
    (r : Erased.RawLogic) (formData : gmap string JsValue)
    (fields : list FieldRef) :
  Erased.evaluateConditionalLogic (Some r) formData fields
    = Erased.Throws_TypeError
  <-> ToBoolean (Erased.raw_enabled r) = true
      /\ (exists sf, Erased.findSource fields (Erased.raw_sourceFieldId r)
                     = Some sf)
      /\ (Erased.raw_operator r = JsString "equals"
          \/ Erased.raw_operator r = JsString "not_equals"
          \/ Erased.raw_operator r = JsString "contains")
      /\ (forall s, Erased.raw_value r <> JsString s).
Proof.
  unfold Erased.evaluateConditionalLogic.
  destruct (ToBoolean (Erased.raw_enabled r)); simpl.
  2:{ split; [discriminate | intros [H _]; discriminate]. }
  destruct (Erased.findSource fields (Erased.raw_sourceFieldId r)) as [sf|].
  2:{ split; [discriminate | intros [_ [[sf H] _]]; discriminate]. }
  destruct (Erased.conditionMet (Erased.raw_operator r)
              (get formData (field_name sf)) (Erased.raw_value r)) eqn:E; simpl.
  - split; [discriminate|]. intros [_ [_ H]].
    apply (proj2 (erased_conditionMet_throws (Erased.raw_operator r)
                    (get formData (field_name sf)) (Erased.raw_value r))) in H.
    congruence.
  - apply erased_conditionMet_throws in E. split; [|reflexivity].
    intros _. split; [reflexivity|]. split; [eauto | exact E].
Qed.

(** X2. A not_empty rule never reads its literal: whatever sits in [value],
    even nothing or a non-string, the body returns without throwing, and the
    result is the same for any two stored values. *)
Theorem not_empty_never_reads_literal
    (en act sid v1 v2 : JsValue) (formData : gmap string JsValue)
    (fields : list FieldRef) :
  Erased.evaluateConditionalLogic
    (Some {| Erased.raw_enabled := en; Erased.raw_action := act;
             Erased.raw_sourceFieldId := sid;
             Erased.raw_operator := JsString "not_empty";
             Erased.raw_value := v1 |}) formData fields
  = Erased.evaluateConditionalLogic
      (Some {| Erased.raw_enabled := en; Erased.raw_action := act;
               Erased.raw_sourceFieldId := sid;
               Erased.raw_operator := JsString "not_empty";
               Erased.raw_value := v2 |}) formData fields
  /\ Erased.evaluateConditionalLogic
       (Some {| Erased.raw_enabled := en; Erased.raw_action := act;
                Erased.raw_sourceFieldId := sid;
                Erased.raw_operator := JsString "not_empty";
                Erased.raw_value := v1 |}) formData fields
     <> Erased.Throws_TypeError.
Proof.
  split.
  - unfold Erased.evaluateConditionalLogic. simpl.
    destruct (ToBoolean en); simpl; [|reflexivity].
    destruct (Erased.findSource fields sid); reflexivity.
  - unfold Erased.evaluateConditionalLogic. simpl.
    destruct (ToBoolean en); simpl; [|discriminate].
    destruct (Erased.findSource fields sid); discriminate.
Qed.

(** X3. An enabled rule whose operator is none of the four known ones has a
    condition that is never met: once its source field resolves, the field is
    hidden under action "show" and shown under any other action, whatever the
    answers and the literal. *)
Theorem unknown_operator_is_never_met
    (r : Erased.RawLogic) (formData : gmap string JsValue)
    (fields : list FieldRef) (sf : FieldRef) :
  ToBoolean (Erased.raw_enabled r) = true ->
  Erased.findSource fields (Erased.raw_sourceFieldId r) = Some sf ->
  (forall o, Erased.raw_operator r <> JsString (Erased.operator_tag o)) ->
  Erased.evaluateConditionalLogic (Some r) formData fields
  = Erased.Returns (negb (strict_eq (Erased.raw_action r) (JsString "show"))).
Proof.
  intros He Hf Hop. unfold Erased.evaluateConditionalLogic.
  rewrite He, Hf. simpl. unfold Erased.conditionMet.
  assert (H1 := Hop equals). assert (H2 := Hop not_equals).
  assert (H3 := Hop contains). assert (H4 := Hop not_empty).
  simpl in H1, H2, H3, H4.
  apply strict_eq_false in H1, H2, H3, H4. rewrite H1, H2, H3, H4. simpl.
  destruct (strict_eq (Erased.raw_action r) (JsString "show")); reflexivity.
Qed.

Lemma unknown_operator_is_never_met_witness :
  Erased.evaluateConditionalLogic (Some rule_with_unknown_operator)
    {[ "subscribe" := JsString "5" ]} scenario_fields
  = Erased.Returns false.
Proof.
  apply (unknown_operator_is_never_met rule_with_unknown_operator
           {[ "subscribe" := JsString "5" ]} scenario_fields subscribe_field).
  - reflexivity.
  - reflexivity.
  - intros o. destruct o; discriminate.
Defined.

(** X4. Any stored action other than "show" behaves as "hide": the result is
    the one of the same rule with action "hide". *)
Theorem unknown_action_acts_as_hide
    (en act sid op v : JsValue) (formData : gmap string JsValue)
    (fields : list FieldRef) :
  act <> JsString "show" ->
  Erased.evaluateConditionalLogic
    (Some {| Erased.raw_enabled := en; Erased.raw_action := act;
             Erased.raw_sourceFieldId := sid; Erased.raw_operator := op;
             Erased.raw_value := v |}) formData fields
  = Erased.evaluateConditionalLogic
      (Some {| Erased.raw_enabled := en; Erased.raw_action := JsString "hide";
               Erased.raw_sourceFieldId := sid; Erased.raw_operator := op;
               Erased.raw_value := v |}) formData fields.
Proof.
  intros Hact. apply strict_eq_false in Hact.
  unfold Erased.evaluateConditionalLogic. simpl. rewrite Hact. reflexivity.
Qed.

Lemma unknown_action_acts_as_hide_witness :
  Erased.evaluateConditionalLogic
    (Some {| Erased.raw_enabled := JsBoolean true;
             Erased.raw_action := JsString "Show";
             Erased.raw_sourceFieldId := JsString "f1";
             Erased.raw_operator := JsString "not_empty";
             Erased.raw_value := JsString "" |})
    {[ "subscribe" := JsString "x" ]} scenario_fields
  = Erased.evaluateConditionalLogic
      (Some {| Erased.raw_enabled := JsBoolean true;
               Erased.raw_action := JsString "hide";
               Erased.raw_sourceFieldId := JsString "f1";
               Erased.raw_operator := JsString "not_empty";
               Erased.raw_value := JsString "" |})
      {[ "subscribe" := JsString "x" ]} scenario_fields.
Proof.
  apply unknown_action_acts_as_hide. discriminate.
Defined.

(** X5. When several fields carry the id a rule names, the first of them
    decides: the fields before it that do not match and every field after it
    play no part in the result. *)
Theorem first_matching_field_decides
    (l : ConditionalLogic) (formData : gmap string JsValue)
    (before after : list FieldRef) (f : FieldRef) :
  (forall g, In g before -> id g <> sourceFieldId l) ->
  id f = sourceFieldId l ->
  evaluateConditionalLogic (Some l) formData (before ++ f :: after)
  = evaluateConditionalLogic (Some l) formData [f].
Proof.
  intros Hbefore Hf.
  assert (H1 : findSource (before ++ f :: after) (sourceFieldId l) = Some f).
  { unfold findSource. induction before as [|g before IH]; simpl.
    - rewrite Hf, String.eqb_refl. reflexivity.
    - destruct (String.eqb_spec (id g) (sourceFieldId l)) as [Heq|_].
      + exfalso. apply (Hbefore g); [left; reflexivity | exact Heq].
      + apply IH. intros g' Hin. apply Hbefore. right. exact Hin. }
  assert (H2 : findSource [f] (sourceFieldId l) = Some f).
  { unfold findSource. simpl. rewrite Hf, String.eqb_refl. reflexivity. }
  unfold evaluateConditionalLogic. rewrite H1, H2. reflexivity.
Qed.

Lemma first_matching_field_decides_witness :
  evaluateConditionalLogic (Some (scenario_rule show equals "yes"))
    {[ "subscribe" := JsString "yes"; "other" := JsString "no" ]}
    ([email_field] ++ subscribe_field
       :: [{| id := "f1"; field_name := "other" |}])
  = evaluateConditionalLogic (Some (scenario_rule show equals "yes"))
      {[ "subscribe" := JsString "yes"; "other" := JsString "no" ]}
      [subscribe_field].
Proof.
  apply first_matching_field_decides.
  - intros g [<- | []]. discriminate.
  - reflexivity.
Defined.

Section CaseFolding.

Lemma lower_ascii_idempotent (c : ascii) :
  lower_ascii (lower_ascii c) = lower_ascii c.
Proof. destruct c as [[] [] [] [] [] [] [] []]; reflexivity. Qed.

Lemma toLowerCase_idempotent (s : string) :
  toLowerCase (toLowerCase s) = toLowerCase s.
Proof.
  induction s as [|c s IH]; simpl; [reflexivity|].
  rewrite lower_ascii_idempotent, IH. reflexivity.
Qed.

Lemma toLowerCase_empty (s : string) : toLowerCase s = "" <-> s = "".
Proof. destruct s; simpl; split; congruence. Qed.

Lemma string_or_empty (s : string) :
  ToString (js_or (JsString s) (JsString "")) = s.
Proof. destruct s; reflexivity. Qed.

End CaseFolding.

(** X6. Letter case never matters: for every operator, replacing a string
    answer by its lower-cased form, or the literal by its lower-cased form,
    leaves the condition unchanged. *)
Theorem condition_ignores_case (op : Operator) (s lit : string) :
  conditionMet op (JsString (toLowerCase s)) lit
    = conditionMet op (JsString s) lit
  /\ conditionMet op (JsString s) (toLowerCase lit)
     = conditionMet op (JsString s) lit.
Proof.
  split.
  - destruct op; unfold conditionMet;
      rewrite ?string_or_empty, ?toLowerCase_idempotent; try reflexivity.
    destruct s; reflexivity.
  - destruct op; unfold conditionMet;
      rewrite ?toLowerCase_idempotent; reflexivity.
Qed.

Section OperatorRelations.

Lemma append_empty_r (s : string) : s +:+ "" = s.
Proof.
  induction s as [|c s IH]; [reflexivity|].
  change (String c (s +:+ "") = String c s). rewrite IH. reflexivity.
Qed.

Lemma includes_itself (s : string) : includes s s = true.
Proof.
  apply includes_occurs. exists "", "".
  change (s = s +:+ ""). symmetry. apply append_empty_r.
Qed.

Lemma includes_in_empty (t : string) : includes "" t = true -> t = "".
Proof. destruct t; [reflexivity | discriminate]. Qed.

Lemma decimal_nonempty (n : Z) : ToString (JsNumber n) <> "".
Proof.
  unfold ToString. destruct (Z.to_int n) as [d|d]; simpl.
  - destruct d; discriminate.
  - discriminate.
Qed.

(** A value whose string form is not empty counts as filled in. *)
Lemma filled_when_form_nonempty (v : JsValue) (lit : string) :
  stringForm_falsy_empty v <> "" -> conditionMet not_empty v lit = true.
Proof.
  destruct v as [| |[|]|n|s|m]; simpl; try congruence; try reflexivity.
  intros H. destruct s; [congruence | reflexivity].
Qed.

Lemma form_empty_iff_falsy (v : JsValue) :
  stringForm_falsy_empty v = "" <-> ToBoolean v = false.
Proof.
  destruct v as [| |[|]|n|s|m]; simpl; try (split; congruence).
  - destruct n as [|p|p]; simpl.
    + split; reflexivity.
    + split; [|discriminate]. intros H.
      exfalso. exact (decimal_nonempty (Z.pos p) H).
    + split; [|discriminate]. intros H.
      exfalso. exact (decimal_nonempty (Z.neg p) H).
  - destruct s; simpl; split; congruence.
  - destruct m; split; discriminate.
Qed.

Lemma contains_when_equals (v : JsValue) (lit : string) :
  conditionMet equals v lit = true -> conditionMet contains v lit = true.
Proof.
  unfold conditionMet. intros H. apply String.eqb_eq in H. rewrite H.
  apply includes_itself.
Qed.

End OperatorRelations.

(** X7. Whatever meets equals also meets contains: for every source value
    and literal, if the equals condition holds then so does the contains
    condition. *)
Theorem equals_implies_contains (v : JsValue) (lit : string) :
  conditionMet equals v lit = true -> conditionMet contains v lit = true.
Proof. apply contains_when_equals. Qed.

Lemma equals_implies_contains_witness :
  conditionMet contains (JsString "Yes") "yes" = true.
Proof. apply equals_implies_contains. reflexivity. Defined.

(** X8. A match on a non-empty literal implies the source is filled in: if
    the literal is not empty and the equals or the contains condition holds,
    the not_empty condition holds too. *)
Theorem match_on_literal_implies_not_empty (v : JsValue) (lit : string) :
  lit <> "" ->
  conditionMet equals v lit = true \/ conditionMet contains v lit = true ->
  conditionMet not_empty v lit = true.
Proof.
  intros Hlit Hmatch. apply filled_when_form_nonempty. intros Hform.
  assert (Hc : conditionMet contains v lit = true).
  { destruct Hmatch as [H|H]; [apply contains_when_equals, H | exact H]. }
  unfold conditionMet in Hc. rewrite or_empty_string_form, Hform in Hc.
  apply includes_in_empty in Hc.
  apply (proj1 (toLowerCase_empty lit)) in Hc. exact (Hlit Hc).
Qed.

Lemma match_on_literal_implies_not_empty_witness :
  conditionMet not_empty (JsString "Blue Whale") "whale" = true.
Proof.
  apply match_on_literal_implies_not_empty.
  - discriminate.
  - right. reflexivity.
Defined.

(** X9. Comparing with the empty literal tests falsiness: equals with
    literal "" holds exactly for the falsy source values, so it is the
    complement of not_empty for every value but the number 0, which is both
    filled in and equal to the empty literal. *)
Theorem equals_empty_literal_is_falsiness (v : JsValue) (lit : string) :
  v <> JsNumber 0 ->
  conditionMet equals v "" = negb (ToBoolean v)
  /\ conditionMet not_empty v lit = negb (conditionMet equals v "")
  /\ conditionMet equals (JsNumber 0) "" = true
  /\ conditionMet not_empty (JsNumber 0) lit = true.
Proof.
  intros Hv.
  assert (He : conditionMet equals v "" = negb (ToBoolean v)).
  { unfold conditionMet. rewrite or_empty_string_form. simpl.
    destruct (ToBoolean v) eqn:Hb; simpl.
    - apply String.eqb_neq. intros H.
      apply (proj1 (toLowerCase_empty _)) in H.
      apply (proj1 (form_empty_iff_falsy v)) in H. congruence.
    - apply String.eqb_eq. apply (proj2 (toLowerCase_empty _)).
      apply (proj2 (form_empty_iff_falsy v)). exact Hb. }
  split; [exact He|]. split; [|split; reflexivity].
  rewrite He, negb_involutive.
  destruct v as [| |[|]|n|s|m]; try reflexivity.
  - destruct n; [congruence | reflexivity | reflexivity].
  - destruct s; reflexivity.
Qed.

Lemma equals_empty_literal_is_falsiness_witness :
  conditionMet equals (JsBoolean false) "" = negb (ToBoolean (JsBoolean false))
  /\ conditionMet not_empty (JsBoolean false) "x"
     = negb (conditionMet equals (JsBoolean false) "")
  /\ conditionMet equals (JsNumber 0) "" = true
  /\ conditionMet not_empty (JsNumber 0) "x" = true.
Proof.
  apply equals_empty_literal_is_falsiness. discriminate.
Defined.

(** ** The rule editor and the evaluator *)

Section EditorFacts.

Lemma availableFields_In (fieldId : string) (others : list Editor.Field)
    (f : Editor.Field) :
  In f (Editor.availableFields fieldId others) <->
  In f others /\ Editor.id f <> fieldId.
Proof.
  unfold Editor.availableFields. rewrite List.filter_In, negb_true_iff.
  rewrite String.eqb_neq. reflexivity.
Qed.

Lemma findSource_refs_resolves (others : list Editor.Field) (f : Editor.Field) :
  In f others ->
  exists sf, findSource (List.map Editor.ref others) (Editor.id f) = Some sf
             /\ id sf = Editor.id f.
Proof.
  intros Hin.
  destruct (findSource_resolves (List.map Editor.ref others) (Editor.id f))
    as [sf Hsf].
  - exists (Editor.ref f). split; [|reflexivity].
    apply List.in_map. exact Hin.
  - exists sf. split; [exact Hsf|]. apply findSource_In in Hsf. apply Hsf.
Qed.

End EditorFacts.

(** X10. A source picked in the editor is never the edited field itself and
    always resolves: for every field the editor offers, the rule produced by
    selecting it names an id different from the edited field's, and the
    evaluator finds a field with that id among the fields. *)
Theorem picked_source_resolves_and_is_not_self
    (fieldId : string) (otherFields : list Editor.Field)
    (conditionalLogic : option ConditionalLogic) (f : Editor.Field) :
  In f (Editor.availableFields fieldId otherFields) ->
  sourceFieldId (Editor.selectSource conditionalLogic (Editor.id f))
    <> fieldId
  /\ exists sf,
       findSource (List.map Editor.ref otherFields)
         (sourceFieldId (Editor.selectSource conditionalLogic (Editor.id f)))
       = Some sf
       /\ id sf = Editor.id f.
Proof.
  intros Hin. apply availableFields_In in Hin. destruct Hin as [Hin Hne].
  split; [exact Hne|]. simpl. apply findSource_refs_resolves, Hin.
Qed.

Lemma picked_source_resolves_and_is_not_self_witness :
  sourceFieldId
    (Editor.selectSource None
       (Editor.id {| Editor.id := "f1"; Editor.field_name := "subscribe";
                     Editor.field_label := "Subscribe?";
                     Editor.field_type := "checkbox" |}))
  <> "f2".
Proof.
  apply (picked_source_resolves_and_is_not_self "f2"
           [ {| Editor.id := "f1"; Editor.field_name := "subscribe";
                Editor.field_label := "Subscribe?";
                Editor.field_type := "checkbox" |};
             {| Editor.id := "f2"; Editor.field_name := "email";
                Editor.field_label := "Email";
                Editor.field_type := "email" |} ]
           None
           {| Editor.id := "f1"; Editor.field_name := "subscribe";
              Editor.field_label := "Subscribe?";
              Editor.field_type := "checkbox" |}).
  left. reflexivity.
Defined.

(** X11. The editor renders nothing exactly when there is no field to
    condition on: every field it is given carries the edited field's own
    id (in particular when it is given none). *)
Theorem editor_renders_nothing_iff_no_other_field
    (fieldId : string) (otherFields : list Editor.Field) :
  Editor.rendersNothing fieldId otherFields = true <->
  (forall f, In f otherFields -> Editor.id f = fieldId).
Proof.
  unfold Editor.rendersNothing. rewrite Nat.eqb_eq. split.
  - intros Hlen f Hin.
    destruct (String.eqb_spec (Editor.id f) fieldId) as [Heq|Hne]; [exact Heq|].
    assert (Hav : In f (Editor.availableFields fieldId otherFields)).
    { apply availableFields_In. auto. }
    destruct (Editor.availableFields fieldId otherFields); [destruct Hav|].
    discriminate.
  - intros Hall.
    destruct (Editor.availableFields fieldId otherFields) as [|g rest] eqn:E;
      [reflexivity|].
    assert (Hg : In g (Editor.availableFields fieldId otherFields)).
    { rewrite E. left. reflexivity. }
    apply availableFields_In in Hg. destruct Hg as [Hin Hne].
    exfalso. exact (Hne (Hall g Hin)).
Qed.

(** X12. Switching a rule off in the editor makes the field visible: the
    rule handed over by the toggle evaluates to true for every stored rule,
    answer set and field collection. *)
Theorem toggled_off_rule_is_visible
    (conditionalLogic : option ConditionalLogic)
    (formData : gmap string JsValue) (fields : list FieldRef) :
  evaluateConditionalLogic
    (Some (Editor.handleToggle conditionalLogic false)) formData fields
  = true.
Proof. apply evaluate_disabled. reflexivity. Qed.

(** X13. Toggling sets the [enabled] flag and touches nothing else: the
    rule handed over has [enabled] equal to the switch position and the
    action, source, operator and literal of the rule being edited (of the
    default rule when none is stored). Hence of two toggles in a row the
    last one wins, toggling a rule to the state it is in gives the rule
    back, and switching an enabled rule off and on again restores it. *)
Theorem toggles_compose
    (conditionalLogic : option ConditionalLogic) (l : ConditionalLogic)
    (a b : bool) :
  enabled (Editor.handleToggle conditionalLogic b) = b
  /\ action (Editor.handleToggle conditionalLogic b)
     = action (Editor.logic conditionalLogic)
  /\ sourceFieldId (Editor.handleToggle conditionalLogic b)
     = sourceFieldId (Editor.logic conditionalLogic)
  /\ operator (Editor.handleToggle conditionalLogic b)
     = operator (Editor.logic conditionalLogic)
  /\ value (Editor.handleToggle conditionalLogic b)
     = value (Editor.logic conditionalLogic)
  /\ Editor.logic None = Editor.defaultLogic
  /\ Editor.logic (Some l) = l
  /\ Editor.handleToggle (Some (Editor.handleToggle conditionalLogic a)) b
     = Editor.handleToggle conditionalLogic b
  /\ Editor.handleToggle (Some l) (enabled l) = l
  /\ (enabled l = true ->
      Editor.handleToggle (Some (Editor.handleToggle (Some l) false)) true = l).
Proof.
  split; [destruct b; reflexivity|].
  split; [destruct b; reflexivity|].
  split; [destruct b; reflexivity|].
  split; [destruct b; reflexivity|].
  split; [destruct b; reflexivity|].
  split; [reflexivity|]. split; [reflexivity|].
  split; [|split].
  - destruct a, b; reflexivity.
  - destruct l as [[|] ? ? ? ?]; reflexivity.
  - destruct l as [e ? ? ? ?]. simpl. intros ->. reflexivity.
Qed.

Lemma toggles_compose_witness :
  Editor.handleToggle
    (Some (Editor.handleToggle (Some (scenario_rule hide contains "x")) false))
    true
  = scenario_rule hide contains "x"
  /\ enabled (Editor.handleToggle (Some (scenario_rule hide contains "x")) false)
     = false
  /\ action (Editor.handleToggle (Some (scenario_rule hide contains "x")) false)
     = hide.
Proof.
  split; [|split].
  - apply (toggles_compose None (scenario_rule hide contains "x") true true).
    reflexivity.
  - apply (toggles_compose (Some (scenario_rule hide contains "x"))
             (scenario_rule hide contains "x") true false).
  - exact (proj1 (proj2 (toggles_compose
                           (Some (scenario_rule hide contains "x"))
                           (scenario_rule hide contains "x") true false))).
Defined.

(** X14. A rule started in the editor does not hide the field before a
    source is chosen: with no stored rule, the rule produced by the toggle,
    or by any update that sets no source, evaluates to true as long as no
    field has the empty id. *)
Theorem rule_without_source_is_visible
    (updates : Editor.Updates) (on : bool)
    (formData : gmap string JsValue) (fields : list FieldRef) :
  Editor.upd_sourceFieldId updates = None ->
  (forall f, In f fields -> id f <> "") ->
  evaluateConditionalLogic (Some (Editor.handleUpdate None updates))
    formData fields = true
  /\ evaluateConditionalLogic (Some (Editor.handleToggle None on))
       formData fields = true.
Proof.
  intros Hu Hids. split.
  - apply evaluate_unresolved. apply findSource_None.
    unfold Editor.handleUpdate, Editor.spread. simpl. rewrite Hu. exact Hids.
  - apply evaluate_unresolved. apply findSource_None.
    destruct on; exact Hids.
Qed.

Lemma rule_without_source_is_visible_witness :
  evaluateConditionalLogic
    (Some (Editor.handleUpdate None
             {| Editor.upd_enabled := Some true;
                Editor.upd_action := Some hide;
                Editor.upd_sourceFieldId := None;
                Editor.upd_operator := Some not_empty;
                Editor.upd_value := None |}))
    ∅ scenario_fields = true.
Proof.
  apply (rule_without_source_is_visible
           {| Editor.upd_enabled := Some true;
              Editor.upd_action := Some hide;
              Editor.upd_sourceFieldId := None;
              Editor.upd_operator := Some not_empty;
              Editor.upd_value := None |} true ∅ scenario_fields).
  - reflexivity.
  - intros f [<- | [<- | []]]; discriminate.
Defined.

(** X15. Whenever the editor hides the value input (the rule is off or its
    operator is not_empty), the stored literal has no effect: replacing it by
    any other text leaves the result unchanged. *)
Theorem hidden_value_input_means_literal_unused
    (conditionalLogic : option ConditionalLogic) (val : string)
    (formData : gmap string JsValue) (fields : list FieldRef) :
  Editor.showsValueInput conditionalLogic = false ->
  evaluateConditionalLogic (Some (Editor.typeValue conditionalLogic val))
    formData fields
  = evaluateConditionalLogic (Some (Editor.logic conditionalLogic))
      formData fields.
Proof.
  unfold Editor.showsValueInput, Editor.typeValue, Editor.handleUpdate.
  destruct (Editor.logic conditionalLogic) as [e a sid op v]. simpl.
  intros H. unfold evaluateConditionalLogic. simpl.
  destruct e; simpl; [|reflexivity].
  destruct op; simpl in H; try discriminate.
  destruct (findSource fields sid); reflexivity.
Qed.

Lemma hidden_value_input_means_literal_unused_witness :
  evaluateConditionalLogic
    (Some (Editor.typeValue (Some (scenario_rule show not_empty "old")) "new"))
    {[ "subscribe" := JsString "x" ]} scenario_fields
  = evaluateConditionalLogic
      (Some (Editor.logic (Some (scenario_rule show not_empty "old"))))
      {[ "subscribe" := JsString "x" ]} scenario_fields.
Proof.
  apply hidden_value_input_means_literal_unused. reflexivity.
Defined.

(** ** The live preview *)

Section PreviewFacts.

Variable fields : list FormPreview.Field.

(** The evaluator's source field is the image of a preview field. *)
Lemma refs_source (sid : string) (sf : FieldRef) :
  findSource (FormPreview.refs fields) sid = Some sf ->
  exists g, In g fields /\ FormPreview.id g = sid
            /\ FormPreview.field_name g = field_name sf.
Proof.
  intros H. apply findSource_In in H. destruct H as [Hin Hid].
  unfold FormPreview.refs in Hin. apply List.in_map_iff in Hin.
  destruct Hin as [g [<- Hg]]. exists g. auto.
Qed.

(** Answer sets that read the same at the source field give one result. *)
Lemma evaluate_same_source_value (logic : option ConditionalLogic)
    (refs : list FieldRef) (a1 a2 : gmap string JsValue) :
  (forall l sf, logic = Some l ->
                findSource refs (sourceFieldId l) = Some sf ->
                get a1 (field_name sf) = get a2 (field_name sf)) ->
  evaluateConditionalLogic logic a1 refs = evaluateConditionalLogic logic a2 refs.
Proof.
  intros H. destruct logic as [l|]; [|reflexivity].
  unfold evaluateConditionalLogic.
  destruct (negb (enabled l)); [reflexivity|].
  destruct (findSource refs (sourceFieldId l)) as [sf|] eqn:Hf; [|reflexivity].
  rewrite (H l sf eq_refl Hf). reflexivity.
Qed.

Lemma get_update_ne (name key : string) (v : JsValue)
    (m : gmap string JsValue) :
  key <> name -> get (FormPreview.updatePreviewData name v m) key = get m key.
Proof.
  intros Hne. unfold get, FormPreview.updatePreviewData.
  rewrite lookup_insert_ne by congruence. reflexivity.
Qed.

Lemma get_update_eq (name : string) (v : JsValue) (m : gmap string JsValue) :
  get (FormPreview.updatePreviewData name v m) name = v.
Proof.
  unfold get, FormPreview.updatePreviewData. rewrite lookup_insert_eq.
  reflexivity.
Qed.

Lemma filter_all (A : Type) (p : A -> bool) (l : list A) :
  (forall x, In x l -> p x = true) -> List.filter p l = l.
Proof.
  induction l as [|x l IH]; intros H; simpl; [reflexivity|].
  rewrite (H x) by (left; reflexivity). f_equal. apply IH.
  intros y Hy. apply H. right. exact Hy.
Qed.

End PreviewFacts.

(** X16. Answering another field never changes a field's visibility: when
    no field carrying the rule's source id is stored under the name being
    written, the field is as visible after [updatePreviewData] as before. *)
Theorem answer_elsewhere_keeps_visibility
    (fields : list FormPreview.Field) (previewData : gmap string JsValue)
    (field : FormPreview.Field) (fieldName : string) (v : JsValue) :
  (forall l g, FormPreview.or_null (FormPreview.conditional_logic field)
               = Some l ->
               In g fields -> FormPreview.id g = sourceFieldId l ->
               FormPreview.field_name g <> fieldName) ->
  FormPreview.isFieldVisible fields
    (FormPreview.updatePreviewData fieldName v previewData) field
  = FormPreview.isFieldVisible fields previewData field.
Proof.
  intros Hother. unfold FormPreview.isFieldVisible.
  apply evaluate_same_source_value. intros l sf Hl Hf.
  apply get_update_ne. apply refs_source in Hf.
  destruct Hf as [g [Hin [Hid Hname]]]. rewrite <- Hname.
  exact (Hother l g Hl Hin Hid).
Qed.

Lemma answer_elsewhere_keeps_visibility_witness :
  FormPreview.isFieldVisible [self_referencing_field]
    (FormPreview.updatePreviewData "email" (JsString "a@b.c") ∅)
    self_referencing_field
  = FormPreview.isFieldVisible [self_referencing_field] ∅
      self_referencing_field.
Proof.
  apply answer_elsewhere_keeps_visibility.
  intros l g _ [<- | []] _. discriminate.
Defined.

(** X17. An answer written to the source field decides alone: for an
    enabled rule whose source resolves, right after [updatePreviewData]
    stores [v] under the source's name the field's visibility is the
    condition on [v] seen through the action, whatever was stored before. *)
Theorem answer_to_source_decides_visibility
    (fields : list FormPreview.Field) (previewData : gmap string JsValue)
    (field : FormPreview.Field) (l : ConditionalLogic) (sf : FieldRef)
    (v : JsValue) :
  FormPreview.or_null (FormPreview.conditional_logic field) = Some l ->
  enabled l = true ->
  findSource (FormPreview.refs fields) (sourceFieldId l) = Some sf ->
  FormPreview.isFieldVisible fields
    (FormPreview.updatePreviewData (field_name sf) v previewData) field
  = match action l with
    | show => conditionMet (operator l) v (value l)
    | hide => negb (conditionMet (operator l) v (value l))
    end.
Proof.
  intros Hl He Hf. unfold FormPreview.isFieldVisible. rewrite Hl.
  rewrite (evaluate_resolved _ _ l sf He Hf). cbv zeta.
  rewrite get_update_eq. reflexivity.
Qed.

Lemma answer_to_source_decides_visibility_witness :
  FormPreview.isFieldVisible [self_referencing_field]
    (FormPreview.updatePreviewData "subscribe" (JsString "YES")
       {[ "subscribe" := JsString "no" ]})
    self_referencing_field
  = conditionMet equals (JsString "YES") "yes".
Proof.
  apply (answer_to_source_decides_visibility [self_referencing_field]
           {[ "subscribe" := JsString "no" ]} self_referencing_field
           (scenario_rule show equals "yes") subscribe_field
           (JsString "YES")); reflexivity.
Defined.

(** X18. A form without active rules shows everything: when no field
    carries an enabled rule, [visibleFields] is the whole field list, in
    order, for every answer set. *)
Theorem all_fields_visible_without_active_rules
    (fields : list FormPreview.Field) (previewData : gmap string JsValue) :
  (forall f l, In f fields ->
               FormPreview.or_null (FormPreview.conditional_logic f) = Some l ->
               enabled l = false) ->
  PreviewRendering.visibleFields fields previewData = fields.
Proof.
  intros Hoff. unfold PreviewRendering.visibleFields. apply filter_all.
  intros f Hin. unfold FormPreview.isFieldVisible.
  destruct (FormPreview.or_null (FormPreview.conditional_logic f)) as [l|] eqn:E.
  - apply evaluate_disabled. exact (Hoff f l Hin E).
  - reflexivity.
Qed.

Lemma all_fields_visible_without_active_rules_witness :
  PreviewRendering.visibleFields
    [ {| FormPreview.id := "f2"; FormPreview.field_name := "email";
         FormPreview.field_type := "email"; FormPreview.field_label := "Email";
         FormPreview.placeholder := ""; FormPreview.required := true;
         FormPreview.options := None; FormPreview.order_index := 1;
         FormPreview.conditional_logic :=
           Some (Some (disabled_rule show equals "yes")) |} ] ∅
  = [ {| FormPreview.id := "f2"; FormPreview.field_name := "email";
         FormPreview.field_type := "email"; FormPreview.field_label := "Email";
         FormPreview.placeholder := ""; FormPreview.required := true;
         FormPreview.options := None; FormPreview.order_index := 1;
         FormPreview.conditional_logic :=
           Some (Some (disabled_rule show equals "yes")) |} ].
Proof.
  apply all_fields_visible_without_active_rules.
  intros f l [<- | []] Hl. injection Hl as <-. reflexivity.
Defined.

(** X19. The preview shows what was last entered: after
    [updatePreviewData] stores a text under a field's name that text is the
    field's rendered value, after it stores a boolean the checkbox is ticked
    exactly when the boolean is true, and a radio button is selected exactly
    when its option is the stored text. A field never touched has its
    checkbox unticked; it renders as the empty text when its name is not a
    key of [Object.prototype], and as the inherited member when it is. *)
Theorem preview_renders_last_answer
    (previewData : gmap string JsValue) (field : FormPreview.Field)
    (s choice : string) (b : bool) :
  PreviewRendering.fieldValue
    (FormPreview.updatePreviewData (FormPreview.field_name field)
       (JsString s) previewData) field = JsString s
  /\ PreviewRendering.checkboxChecked
       (FormPreview.updatePreviewData (FormPreview.field_name field)
          (JsBoolean b) previewData) field = b
  /\ (PreviewRendering.radioChecked
        (FormPreview.updatePreviewData (FormPreview.field_name field)
           (JsString s) previewData) field choice = true
      <-> choice = s)
  /\ PreviewRendering.checkboxChecked ∅ field = false
  /\ (inherited (FormPreview.field_name field) = None ->
      PreviewRendering.fieldValue ∅ field = JsString "")
  /\ (forall m, inherited (FormPreview.field_name field) = Some m ->
      PreviewRendering.fieldValue ∅ field = JsBuiltin m).
Proof.
  unfold PreviewRendering.radioChecked, PreviewRendering.checkboxChecked,
    PreviewRendering.fieldValue.
  rewrite !get_update_eq.
  split; [destruct s; reflexivity|].
  split; [destruct b; reflexivity|].
  split.
  { assert (Hs : js_or (JsString s) (JsString "") = JsString s)
      by (destruct s; reflexivity).
    rewrite Hs. simpl. rewrite String.eqb_eq. split; congruence. }
  split.
  { unfold get. rewrite lookup_empty.
    destruct (inherited (FormPreview.field_name field)); reflexivity. }
  split.
  - intros Hown. rewrite (get_empty _ Hown). reflexivity.
  - intros m Hm.
    rewrite (get_missing_inherited ∅ _ m (lookup_empty _) Hm). reflexivity.
Qed.

Lemma preview_renders_last_answer_witness :
  PreviewRendering.fieldValue ∅ self_referencing_field = JsString ""
  /\ PreviewRendering.fieldValue ∅ constructor_preview_field
     = JsBuiltin m_constructor
  /\ PreviewRendering.fieldValue
       (FormPreview.updatePreviewData "constructor" (JsString "Acme") ∅)
       constructor_preview_field = JsString "Acme".
Proof.
  split; [|split].
  - apply (preview_renders_last_answer ∅ self_referencing_field "" "" true).
    reflexivity.
  - apply (preview_renders_last_answer ∅ constructor_preview_field "" "" true).
    reflexivity.
  - apply (preview_renders_last_answer ∅ constructor_preview_field
             "Acme" "" true).
Defined.

(** ** Submitting the public form *)

Section SubmitFacts.

Import PublicForm.

Lemma firstMissing_None (fields : list Field) (formData : gmap string JsValue) :
  firstMissing fields formData = None <->
  (forall f, In f fields -> required f = true ->
             ToBoolean (get formData (field_name f)) = true).
Proof.
  unfold firstMissing. induction fields as [|g fields IH]; simpl.
  - split; [intros _ f [] | reflexivity].
  - unfold missing at 1. destruct (required g) eqn:Hr; simpl.
    + destruct (ToBoolean (get formData (field_name g))) eqn:Hb; simpl.
      * rewrite IH. split.
        -- intros H f [<- | Hin] Hf; [exact Hb | exact (H f Hin Hf)].
        -- intros H f Hin. apply H. right. exact Hin.
      * split; [discriminate|]. intros H.
        specialize (H g (or_introl eq_refl) Hr). congruence.
    + rewrite IH. split.
      * intros H f [<- | Hin] Hf; [congruence | exact (H f Hin Hf)].
      * intros H f Hin. apply H. right. exact Hin.
Qed.

Lemma firstMissing_first (before after : list Field) (f : Field)
    (formData : gmap string JsValue) :
  (forall g, In g before ->
             required g = false
             \/ ToBoolean (get formData (field_name g)) = true) ->
  required f = true ->
  ToBoolean (get formData (field_name f)) = false ->
  firstMissing (before ++ f :: after) formData = Some f.
Proof.
  intros Hbefore Hr Hb. unfold firstMissing.
  induction before as [|g before IH]; simpl.
  - unfold missing. rewrite Hr, Hb. reflexivity.
  - assert (Hg : missing formData g = false).
    { unfold missing. destruct (Hbefore g (or_introl eq_refl)) as [H|H];
        rewrite H; [reflexivity | apply andb_false_r]. }
    rewrite Hg. apply IH. intros g' Hin. apply Hbefore. right. exact Hin.
Qed.

End SubmitFacts.

(** Reading a key as truthy, in terms of what is stored and inherited. *)
Lemma get_truthy_iff (formData : gmap string JsValue) (key : string) :
  ToBoolean (get formData key) = true <-> reads_truthy formData key.
Proof.
  unfold get, reads_truthy. destruct (formData !! key) as [v|].
  - split.
    + intros H. left. exists v. auto.
    + intros [[w [Hw Ht]] | [Hn _]]; [congruence | discriminate].
  - destruct (inherited key) as [m|]; simpl.
    + split; [|reflexivity]. intros _. right. split; [reflexivity|]. eauto.
    + split; [discriminate|].
      intros [[w [Hw _]] | [_ [m Hm]]]; discriminate.
Qed.

(** X20. The answers reach the database exactly when every required field
    reads as truthy: with a loaded form, [handleSubmit] calls [insert] (and
    ends as submitted or as a failed submission) if and only if, for every
    required field, a truthy answer is stored under its name, or nothing is
    stored and the name is a key inherited from [Object.prototype]; the row
    it sends carries the form's id and the answer set unchanged. *)
Theorem submission_sent_iff_required_answered
    (form : PublicForm.Form) (fields : list PublicForm.Field)
    (formData : gmap string JsValue) (userAgent : string)
    (insert : PublicForm.Submission -> option string) :
  (forall f, In f fields -> PublicForm.required f = true ->
             reads_truthy formData (PublicForm.field_name f))
  <-> (exists row,
         PublicForm.submission_data row = formData
         /\ PublicForm.sub_form_id row = PublicForm.form_id form
         /\ (PublicForm.handleSubmit (Some form) fields formData userAgent
               insert = PublicForm.Submitted row
             \/ exists d,
                  PublicForm.handleSubmit (Some form) fields formData
                    userAgent insert = PublicForm.SubmissionFailed row d)).
Proof.
  transitivity (PublicForm.firstMissing fields formData = None).
  { rewrite firstMissing_None. split; intros H f Hin Hr.
    - apply get_truthy_iff. exact (H f Hin Hr).
    - apply get_truthy_iff. exact (H f Hin Hr). }
  unfold PublicForm.handleSubmit.
  destruct (PublicForm.firstMissing fields formData) as [f|].
  - split; [discriminate|].
    intros [row [_ [_ [H | [d H]]]]]; discriminate.
  - split; [|reflexivity]. intros _.
    exists {| PublicForm.sub_form_id := PublicForm.form_id form;
              PublicForm.submission_data := formData;
              PublicForm.user_agent := userAgent |}.
    split; [reflexivity|]. split; [reflexivity|].
    destruct (insert _); [right; eauto | left; reflexivity].
Qed.

Lemma submission_sent_iff_required_answered_witness :
  exists row,
    PublicForm.submission_data row = {[ "email" := JsString "a@b.c" ]}
    /\ PublicForm.sub_form_id row = PublicForm.form_id newsletter_form
    /\ (PublicForm.handleSubmit (Some newsletter_form)
          [nickname_input; constructor_input; email_input]
          {[ "email" := JsString "a@b.c" ]} "agent" (fun _ => None)
        = PublicForm.Submitted row
        \/ exists d,
             PublicForm.handleSubmit (Some newsletter_form)
               [nickname_input; constructor_input; email_input]
               {[ "email" := JsString "a@b.c" ]} "agent" (fun _ => None)
             = PublicForm.SubmissionFailed row d).
Proof.
  apply (proj1 (submission_sent_iff_required_answered newsletter_form
                  [nickname_input; constructor_input; email_input]
                  {[ "email" := JsString "a@b.c" ]} "agent" (fun _ => None))).
  intros f [<- | [<- | [<- | []]]] Hr.
  - discriminate.
  - right. split; [reflexivity|]. exists m_constructor. reflexivity.
  - left. exists (JsString "a@b.c"). split; reflexivity.
Defined.

(** X21. The validation message names the first required field, in form
    order, that does not read as truthy: when each field before [f] is
    optional or reads as truthy, and [f] is required and does not (a falsy
    value is stored under its name, or nothing is stored and the name is not
    an inherited key), the outcome is the error "<label of f> is required",
    whatever follows [f], and nothing is sent. *)
Theorem validation_names_first_unanswered_field
    (form : PublicForm.Form) (before after : list PublicForm.Field)
    (f : PublicForm.Field) (formData : gmap string JsValue)
    (userAgent : string) (insert : PublicForm.Submission -> option string) :
  (forall g, In g before ->
             PublicForm.required g = false
             \/ reads_truthy formData (PublicForm.field_name g)) ->
  PublicForm.required f = true ->
  ~ reads_truthy formData (PublicForm.field_name f) ->
  PublicForm.handleSubmit (Some form) (before ++ f :: after) formData
    userAgent insert
  = PublicForm.ValidationError (PublicForm.field_label f +:+ " is required").
Proof.
  intros Hbefore Hr Hb. unfold PublicForm.handleSubmit.
  rewrite (firstMissing_first before after f formData).
  - reflexivity.
  - intros g Hin. destruct (Hbefore g Hin) as [H|H]; [left; exact H|].
    right. apply get_truthy_iff. exact H.
  - exact Hr.
  - destruct (ToBoolean (get formData (PublicForm.field_name f))) eqn:E;
      [|reflexivity].
    exfalso. apply Hb. apply get_truthy_iff. exact E.
Qed.

Lemma validation_names_first_unanswered_field_witness :
  PublicForm.handleSubmit (Some newsletter_form)
    ([nickname_input; constructor_input; email_input]
       ++ subscribe_input :: [phone_input])
    (PublicForm.updateFormData "subscribe" (JsBoolean false)
       {[ "email" := JsString "a@b.c" ]})
    "agent" (fun _ => None)
  = PublicForm.ValidationError ("Subscribe" +:+ " is required").
Proof.
  apply (validation_names_first_unanswered_field newsletter_form
           [nickname_input; constructor_input; email_input]
           [phone_input] subscribe_input).
  - intros g [<- | [<- | [<- | []]]].
    + left. reflexivity.
    + right. right. split; [reflexivity|]. exists m_constructor. reflexivity.
    + right. left. exists (JsString "a@b.c"). split; reflexivity.
  - reflexivity.
  - intros [[v [Hv Ht]] | [Hnone _]].
    + vm_compute in Hv. injection Hv as <-. discriminate.
    + vm_compute in Hnone. discriminate.
Defined.

(** ** The builder's field list and the evaluator *)

Section BuilderFacts.

Import FormBuilder.

(** What the preview's evaluator receives from the builder's fields. *)
Lemma refs_previewProps (fields : list Field) :
  FormPreview.refs (previewProps fields)
  = List.map (fun f => Build_FieldRef (id f) (field_name f)) fields.
Proof.
  unfold FormPreview.refs, previewProps. rewrite List.map_map. reflexivity.
Qed.

Lemma findSource_after_delete (fieldId sid : string) (fields : list Field) :
  sid <> fieldId ->
  findSource (FormPreview.refs (previewProps (deleteField false fieldId fields)))
    sid
  = findSource (FormPreview.refs (previewProps fields)) sid.
Proof.
  intros Hne. rewrite !refs_previewProps. unfold deleteField, findSource.
  induction fields as [|f fields IH]; simpl; [reflexivity|].
  destruct (String.eqb_spec (id f) fieldId) as [Heq|Hneq]; simpl.
  - destruct (String.eqb_spec (id f) sid) as [Hs|_]; [congruence | exact IH].
  - destruct (String.eqb (id f) sid); [reflexivity | exact IH].
Qed.

(** The rule stored with a field reaches the preview unchanged. *)
Lemma previewProps_keeps_rules (fields : list Field) :
  List.map FormPreview.conditional_logic (previewProps fields)
  = List.map conditional_logic fields.
Proof.
  unfold previewProps. rewrite List.map_map. reflexivity.
Qed.

Lemma deleteField_app (fieldId : string) (l1 l2 : list Field) :
  deleteField false fieldId (l1 ++ l2)%list
  = (deleteField false fieldId l1 ++ deleteField false fieldId l2)%list.
Proof. unfold deleteField. apply List.filter_app. Qed.

End BuilderFacts.

(** X22. Deleting a field frees the fields that depended on it: after a
    successful [deleteField], every rule whose source is the deleted id
    evaluates to visible over the fields the builder hands to the preview,
    for every answer set. *)
Theorem deleted_source_makes_dependents_visible
    (fieldId : string) (fields : list FormBuilder.Field)
    (l : ConditionalLogic) (formData : gmap string JsValue) :
  sourceFieldId l = fieldId ->
  evaluateConditionalLogic (Some l) formData
    (FormPreview.refs
       (FormBuilder.previewProps (FormBuilder.deleteField false fieldId fields)))
  = true.
Proof.
  intros Hsrc. apply evaluate_unresolved. apply findSource_None.
  rewrite refs_previewProps. intros f Hin.
  apply List.in_map_iff in Hin. destruct Hin as [g [<- Hg]].
  unfold FormBuilder.deleteField in Hg. apply List.filter_In in Hg.
  destruct Hg as [_ Hg]. apply negb_true_iff, String.eqb_neq in Hg.
  simpl. congruence.
Qed.

Lemma deleted_source_makes_dependents_visible_witness :
  evaluateConditionalLogic (Some (scenario_rule show equals "yes"))
    {[ "subscribe" := JsString "no" ]}
    (FormPreview.refs
       (FormBuilder.previewProps
          (FormBuilder.deleteField false "f1"
             [ {| FormBuilder.id := "f1";
                  FormBuilder.field_name := "subscribe";
                  FormBuilder.field_type := "text";
                  FormBuilder.field_label := "Subscribe?";
                  FormBuilder.placeholder := "";
                  FormBuilder.required := false;
                  FormBuilder.options := None;
                  FormBuilder.order_index := 0;
                  FormBuilder.conditional_logic := Some None |} ])))
  = true.
Proof.
  apply deleted_source_makes_dependents_visible. reflexivity.
Defined.

(** X23. Deleting a field leaves the other rules alone: a rule whose source
    is not the deleted id evaluates the same over the builder's fields
    before and after [deleteField]; and when the database call fails the
    field list is not changed at all. *)
Theorem delete_keeps_unrelated_rules
    (fieldId : string) (fields : list FormBuilder.Field)
    (l : ConditionalLogic) (formData : gmap string JsValue) :
  sourceFieldId l <> fieldId ->
  evaluateConditionalLogic (Some l) formData
    (FormPreview.refs
       (FormBuilder.previewProps (FormBuilder.deleteField false fieldId fields)))
  = evaluateConditionalLogic (Some l) formData
      (FormPreview.refs (FormBuilder.previewProps fields))
  /\ FormBuilder.deleteField true fieldId fields = fields.
Proof.
  intros Hne. split; [|reflexivity].
  unfold evaluateConditionalLogic.
  rewrite (findSource_after_delete fieldId (sourceFieldId l) fields Hne).
  reflexivity.
Qed.

Lemma delete_keeps_unrelated_rules_witness :
  evaluateConditionalLogic (Some (scenario_rule show equals "yes"))
    {[ "subscribe" := JsString "yes" ]}
    (FormPreview.refs
       (FormBuilder.previewProps
          (FormBuilder.deleteField false "f2"
             [ {| FormBuilder.id := "f1";
                  FormBuilder.field_name := "subscribe";
                  FormBuilder.field_type := "text";
                  FormBuilder.field_label := "Subscribe?";
                  FormBuilder.placeholder := "";
                  FormBuilder.required := false;
                  FormBuilder.options := None;
                  FormBuilder.order_index := 0;
                  FormBuilder.conditional_logic := Some None |} ])))
  = evaluateConditionalLogic (Some (scenario_rule show equals "yes"))
      {[ "subscribe" := JsString "yes" ]}
      (FormPreview.refs
         (FormBuilder.previewProps
            [ {| FormBuilder.id := "f1";
                 FormBuilder.field_name := "subscribe";
                 FormBuilder.field_type := "text";
                 FormBuilder.field_label := "Subscribe?";
                 FormBuilder.placeholder := "";
                 FormBuilder.required := false;
                 FormBuilder.options := None;
                 FormBuilder.order_index := 0;
                  FormBuilder.conditional_logic := Some None |} ])).
Proof.
  apply delete_keeps_unrelated_rules. discriminate.
Defined.

(** X24. Editing a field's label, type, placeholder, required flag, options
    or position never changes what any rule resolves to: when the update
    carries neither an id nor a field name, the ids and names the evaluator
    receives are the same after [updateField] as before, whether or not the
    database call succeeded. *)
Theorem update_keeps_rule_resolution
    (dbError : bool) (fieldId : string) (updates : FormBuilder.FieldUpdates)
    (fields : list FormBuilder.Field) :
  FormBuilder.upd_id updates = None ->
  FormBuilder.upd_field_name updates = None ->
  FormPreview.refs
    (FormBuilder.previewProps
       (FormBuilder.updateField dbError fieldId updates fields))
  = FormPreview.refs (FormBuilder.previewProps fields).
Proof.
  intros Hid Hname. rewrite !refs_previewProps.
  unfold FormBuilder.updateField. destruct dbError; [reflexivity|].
  rewrite List.map_map. apply List.map_ext. intros f.
  destruct (String.eqb (FormBuilder.id f) fieldId); [|reflexivity].
  unfold FormBuilder.spread. simpl. rewrite Hid, Hname. reflexivity.
Qed.

Lemma update_keeps_rule_resolution_witness :
  FormPreview.refs
    (FormBuilder.previewProps
       (FormBuilder.updateField false "f1"
          {| FormBuilder.upd_id := None;
             FormBuilder.upd_field_name := None;
             FormBuilder.upd_field_type := Some "checkbox";
             FormBuilder.upd_field_label := Some "Newsletter";
             FormBuilder.upd_placeholder := None;
             FormBuilder.upd_required := Some true;
             FormBuilder.upd_options := None;
             FormBuilder.upd_order_index := None |}
          [ {| FormBuilder.id := "f1";
               FormBuilder.field_name := "subscribe";
               FormBuilder.field_type := "text";
               FormBuilder.field_label := "Subscribe?";
               FormBuilder.placeholder := "";
               FormBuilder.required := false;
               FormBuilder.options := None;
               FormBuilder.order_index := 0;
                  FormBuilder.conditional_logic := Some None |} ]))
  = FormPreview.refs
      (FormBuilder.previewProps
         [ {| FormBuilder.id := "f1";
              FormBuilder.field_name := "subscribe";
              FormBuilder.field_type := "text";
              FormBuilder.field_label := "Subscribe?";
              FormBuilder.placeholder := "";
              FormBuilder.required := false;
              FormBuilder.options := None;
              FormBuilder.order_index := 0;
                  FormBuilder.conditional_logic := Some None |} ]).
Proof.
  apply update_keeps_rule_resolution; reflexivity.
Defined.

(** X25. Adding after deleting reuses an order index: when the fields are
    numbered 0, 1, ..., one field other than the last is deleted and the last
    one stays, the row [addField] then sends has the order index the last
    field already carries. *)
Theorem add_after_delete_reuses_order_index
    (formId : string) (now : Z) (fieldId : string)
    (front : list FormBuilder.Field) (last : FormBuilder.Field) :
  List.map FormBuilder.order_index (front ++ [last])
    = List.map Z.of_nat (List.seq 0 (S (List.length front))) ->
  FormBuilder.id last <> fieldId ->
  S (List.length (FormBuilder.deleteField false fieldId front))
    = List.length front ->
  FormBuilder.new_order_index
    (FormBuilder.newField formId now
       (FormBuilder.deleteField false fieldId (front ++ [last])))
  = FormBuilder.order_index last.
Proof.
  intros Hdense Hlast Hone.
  assert (Hkeep : FormBuilder.deleteField false fieldId [last] = [last]).
  { unfold FormBuilder.deleteField. simpl.
    apply String.eqb_neq in Hlast. rewrite Hlast. reflexivity. }
  rewrite deleteField_app, Hkeep.
  unfold FormBuilder.newField. cbn [FormBuilder.new_order_index].
  rewrite List.length_app. cbn [List.length].
  rewrite List.seq_S, !List.map_app in Hdense. cbn [List.map] in Hdense.
  apply List.app_inj_tail in Hdense. destruct Hdense as [_ Hidx].
  rewrite Hidx. f_equal. lia.
Qed.

Lemma add_after_delete_reuses_order_index_witness :
  FormBuilder.new_order_index
    (FormBuilder.newField "form-1" 1700000000000
       (FormBuilder.deleteField false "f1"
          ([ {| FormBuilder.id := "f1";
                FormBuilder.field_name := "subscribe";
                FormBuilder.field_type := "text";
                FormBuilder.field_label := "Subscribe?";
                FormBuilder.placeholder := "";
                FormBuilder.required := false;
                FormBuilder.options := None;
                FormBuilder.order_index := 0;
                  FormBuilder.conditional_logic := Some None |} ]
           ++ [ {| FormBuilder.id := "f2";
                   FormBuilder.field_name := "email";
                   FormBuilder.field_type := "email";
                   FormBuilder.field_label := "Email";
                   FormBuilder.placeholder := "";
                   FormBuilder.required := true;
                   FormBuilder.options := None;
                   FormBuilder.order_index := 1;
                  FormBuilder.conditional_logic :=
                    Some (Some (scenario_rule show equals "yes")) |} ])))
  = 1%Z.
Proof.
  apply (add_after_delete_reuses_order_index "form-1" 1700000000000 "f1"
           [ {| FormBuilder.id := "f1";
                FormBuilder.field_name := "subscribe";
                FormBuilder.field_type := "text";
                FormBuilder.field_label := "Subscribe?";
                FormBuilder.placeholder := "";
                FormBuilder.required := false;
                FormBuilder.options := None;
                FormBuilder.order_index := 0;
                  FormBuilder.conditional_logic := Some None |} ]
           {| FormBuilder.id := "f2";
              FormBuilder.field_name := "email";
              FormBuilder.field_type := "email";
              FormBuilder.field_label := "Email";
              FormBuilder.placeholder := "";
              FormBuilder.required := true;
              FormBuilder.options := None;
              FormBuilder.order_index := 1;
                  FormBuilder.conditional_logic :=
                    Some (Some (scenario_rule show equals "yes")) |}).
  - reflexivity.
  - discriminate.
  - reflexivity.
Defined.

(** ** Rows of a generated form *)

Section GeneratedRows.

Import Index.

Lemma imap_project (A B C : Type) (f : nat -> A -> B) (g : B -> C)
    (l : list A) :
  List.map g (imap f l) = imap (fun i x => g (f i x)) l.
Proof.
  revert f. induction l as [|x l IH]; intros f; simpl; [reflexivity|].
  f_equal. apply IH.
Qed.

Lemma imap_positions (A : Type) (l : list A) (k : nat) :
  imap (fun i _ => Z.of_nat (k + i)) l = List.map Z.of_nat (List.seq k (List.length l)).
Proof.
  revert k. induction l as [|x l IH]; intros k; simpl; [reflexivity|].
  f_equal; [f_equal; lia|].
  rewrite <- IH. apply imap_ext. intros i y _. simpl. f_equal. lia.
Qed.

Lemma imap_forget (A B : Type) (h : A -> B) (l : list A) :
  imap (fun _ x => h x) l = List.map h l.
Proof.
  induction l as [|x l IH]; simpl; [reflexivity|]. f_equal. exact IH.
Qed.

End GeneratedRows.

(** X26. The rows made from the generated fields are numbered without gaps:
    [fieldsToInsert] yields one row per generated field, in the same order
    and with the same names, whose order indices are 0, 1, ..., n-1, each
    carrying the form's id and the empty text for a placeholder left out. *)
Theorem generated_rows_are_numbered_in_order
    (formId : string) (aiFields : list Index.GeneratedField) :
  List.length (Index.fieldsToInsert formId aiFields) = List.length aiFields
  /\ List.map Index.row_order_index (Index.fieldsToInsert formId aiFields)
     = List.map Z.of_nat (List.seq 0 (List.length aiFields))
  /\ List.map Index.row_field_name (Index.fieldsToInsert formId aiFields)
     = List.map Index.field_name aiFields
  /\ List.map Index.row_form_id (Index.fieldsToInsert formId aiFields)
     = List.map (fun _ => formId) aiFields
  /\ List.map Index.row_placeholder (Index.fieldsToInsert formId aiFields)
     = List.map (fun g => default "" (Index.placeholder g)) aiFields.
Proof.
  unfold Index.fieldsToInsert. split; [apply length_imap|].
  rewrite !imap_project. cbn [Index.row_order_index Index.row_field_name
    Index.row_form_id Index.row_placeholder].
  split; [exact (imap_positions _ aiFields 0)|].
  split; [apply imap_forget|]. split; [apply imap_forget|].
  rewrite (imap_forget _ _ (fun g => match Index.placeholder g with
                                     | Some p => p | None => "" end)).
  apply List.map_ext. intros g. destruct (Index.placeholder g); reflexivity.
Qed.

(** ** The exports of the analytics page *)

Section PdfLayout.

Import FormAnalytics.

Lemma layoutFrom_length (fields : list Field) (index pageNo : nat) (y : Z) :
  List.length (layoutFrom fields index pageNo y) = List.length fields.
Proof.
  revert index pageNo y. induction fields as [|f fields IH];
    intros index pageNo y; simpl; [reflexivity|].
  destruct (String.eqb (field_type f) "textarea"); simpl; rewrite IH;
    reflexivity.
Qed.

Lemma layoutFrom_drawn (fields : list Field) (index pageNo : nat) (y : Z) :
  (30 <= y)%Z ->
  forall (i : nat) (f : Field) (p : Placement),
    fields !! i = Some f ->
    layoutFrom fields index pageNo y !! i = Some p ->
    drawn_for (index + i) f p.
Proof.
  revert index pageNo y. induction fields as [|g fields IH];
    intros index pageNo y Hy i f p Hf Hp.
  - rewrite lookup_nil in Hf. discriminate.
  - destruct i as [|i].
    + simpl in Hf. injection Hf as ->. rewrite Nat.add_0_r.
      cbn [layoutFrom] in Hp.
      destruct (Z.gtb_spec y 270) as [Hgt|Hle];
        destruct (String.eqb_spec (field_type f) "textarea") as [Ht|Ht];
        simpl in Hp; injection Hp as <-;
        unfold drawn_for; cbn [label_y label_text area];
        (split; [lia|]); (split; [reflexivity|]);
        (split; intros H; [|]); try contradiction; try congruence;
        try (f_equal; lia).
    + replace (index + S i) with (S index + i) by lia.
      cbn [layoutFrom] in Hp.
      destruct (Z.gtb_spec y 270) as [Hgt|Hle];
        destruct (String.eqb (field_type g) "textarea");
        simpl in Hf, Hp; eapply IH; try exact Hf; try exact Hp; lia.
Qed.

Lemma layoutFrom_first (fields : list Field) (index pageNo : nat) (y : Z)
    (p : Placement) :
  (y <= 270)%Z ->
  layoutFrom fields index pageNo y !! 0 = Some p ->
  label_y p = y /\ page p = pageNo.
Proof.
  intros Hy. destruct fields as [|g fields]; [discriminate|].
  cbn [layoutFrom]. destruct (Z.gtb_spec y 270) as [Hgt|Hle]; [lia|].
  destruct (String.eqb (field_type g) "textarea"); simpl;
    intros H; injection H as <-; split; reflexivity.
Qed.

End PdfLayout.

(** X27. Every field of the printable form is drawn where it belongs: when
    [downloadFormPDF] draws anything it places one label per field, in form
    order, the first at height 65 on the first page and each at a height
    between 30 and 270; the label of the field at position i reads
    "<i + 1>. <label>", with " *" appended when the field is required, and
    its input area sits right under it: a box 8 below and 25 high when the
    field's type is textarea, a rule 13 below for every other type. It
    draws nothing without a loaded form or without fields. *)
Theorem pdf_labels_stay_within_page
    (formLoaded : bool) (fields : list FormAnalytics.Field) :
  match FormAnalytics.downloadFormPDF formLoaded fields with
  | Some placements =>
      formLoaded = true /\ fields <> []
      /\ List.length placements = List.length fields
      /\ (forall i f p, fields !! i = Some f -> placements !! i = Some p ->
                        drawn_for i f p)
      /\ (forall p, placements !! 0 = Some p ->
                    FormAnalytics.label_y p = 65%Z
                    /\ FormAnalytics.page p = 0)
  | None => formLoaded = false \/ fields = []
  end.
Proof.
  unfold FormAnalytics.downloadFormPDF.
  destruct formLoaded; simpl; [|left; reflexivity].
  destruct fields as [|f fields]; simpl Nat.eqb; cbv iota;
    [right; reflexivity|].
  split; [reflexivity|]. split; [discriminate|].
  split; [apply layoutFrom_length|]. split.
  - intros i g p Hg Hp.
    exact (layoutFrom_drawn (f :: fields) 0 0 65 ltac:(lia) i g p Hg Hp).
  - intros p Hp.
    exact (layoutFrom_first (f :: fields) 0 0 65 p ltac:(lia) Hp).
Qed.

Lemma pdf_labels_stay_within_page_witness :
  drawn_for 1
    {| FormAnalytics.id := "f4"; FormAnalytics.field_name := "comments";
       FormAnalytics.required := false;
       FormAnalytics.field_label := "Comments";
       FormAnalytics.field_type := "textarea" |}
    {| FormAnalytics.page := 0; FormAnalytics.label_y := 93;
       FormAnalytics.label_text := "2. Comments";
       FormAnalytics.area := FormAnalytics.Box 101 25 |}.
Proof.
  assert (H := pdf_labels_stay_within_page true
    [ {| FormAnalytics.id := "f1"; FormAnalytics.field_name := "subscribe";
         FormAnalytics.required := true;
         FormAnalytics.field_label := "Subscribe?";
         FormAnalytics.field_type := "checkbox" |};
      {| FormAnalytics.id := "f4"; FormAnalytics.field_name := "comments";
         FormAnalytics.required := false;
         FormAnalytics.field_label := "Comments";
         FormAnalytics.field_type := "textarea" |} ]).
  cbv beta iota delta [FormAnalytics.downloadFormPDF negb orb Nat.eqb
                       List.length] in H.
  destruct H as [_ [_ [_ [Hdrawn _]]]].
  apply (Hdrawn 1); reflexivity.
Defined.

Section CsvLines.

Import FormAnalytics.

Lemma occurrences_append (c : ascii) (s t : string) :
  occurrences c (s +:+ t) = occurrences c s + occurrences c t.
Proof.
  induction s as [|a s IH]; [reflexivity|].
  change (occurrences c (String a (s +:+ t))
          = occurrences c (String a s) + occurrences c t).
  simpl. rewrite IH. lia.
Qed.

(** Joining pieces that are free of [c] leaves only the separators' [c]s. *)
Lemma occurrences_join (c : ascii) (sep : string) (l : list string) :
  (forall x, In x l -> occurrences c x = 0) ->
  occurrences c (join sep l) = Nat.pred (List.length l) * occurrences c sep.
Proof.
  induction l as [|x l IH]; intros H; [reflexivity|].
  destruct l as [|y l].
  - simpl. rewrite (H x (or_introl eq_refl)). reflexivity.
  - change (join sep (x :: y :: l)) with (x +:+ sep +:+ join sep (y :: l)).
    rewrite !occurrences_append, IH.
    + rewrite (H x (or_introl eq_refl)). simpl. lia.
    + intros z Hz. apply H. right. exact Hz.
Qed.

Lemma csv_line_free (row : list string) :
  (forall c, In c row -> occurrences line_feed c = 0) ->
  occurrences line_feed
    (join "," (List.map (fun c => quote +:+ c +:+ quote) row)) = 0.
Proof.
  intros H. rewrite occurrences_join; [simpl; lia|].
  intros x Hx. apply List.in_map_iff in Hx. destruct Hx as [c [<- Hc]].
  rewrite !occurrences_append, (H c Hc). reflexivity.
Qed.

End CsvLines.

(** X28. The CSV export has one line per submission after the header line:
    it produces no file when there is no submission, and otherwise, provided
    no label, formatted date or exported answer contains a line feed, the
    text holds exactly as many line feeds as there are submissions. *)
Theorem csv_has_one_line_per_submission
    (toLocaleString : string -> string)
    (fields : list FormAnalytics.Field)
    (submissions : list FormAnalytics.Submission) :
  (forall f, In f fields ->
             occurrences line_feed (FormAnalytics.field_label f) = 0) ->
  (forall sub, In sub submissions ->
     occurrences line_feed
       (toLocaleString (FormAnalytics.submitted_at sub)) = 0
     /\ forall f, In f fields ->
                  occurrences line_feed (FormAnalytics.cell sub f) = 0) ->
  match FormAnalytics.exportToCSV toLocaleString fields submissions with
  | Some csv =>
      submissions <> []
      /\ occurrences line_feed csv = List.length submissions
  | None => submissions = []
  end.
Proof.
  intros Hlabels Hsubs. unfold FormAnalytics.exportToCSV.
  destruct submissions as [|s0 rest]; [reflexivity|].
  simpl Nat.eqb. cbv iota. split; [discriminate|].
  unfold FormAnalytics.csvText. rewrite occurrences_join.
  - rewrite List.length_map. simpl List.length.
    unfold FormAnalytics.rows. rewrite List.length_map.
    change (occurrences line_feed FormAnalytics.newline) with 1. simpl. lia.
  - intros line Hline. apply List.in_map_iff in Hline.
    destruct Hline as [row [<- Hrow]]. apply csv_line_free.
    intros c Hc. destruct Hrow as [<- | Hrow].
    + destruct Hc as [<- | Hc]; [reflexivity|].
      apply List.in_map_iff in Hc. destruct Hc as [f [<- Hf]].
      apply Hlabels, Hf.
    + unfold FormAnalytics.rows in Hrow. apply List.in_map_iff in Hrow.
      destruct Hrow as [sub [<- Hsub]].
      destruct (Hsubs sub Hsub) as [Hdate Hcells].
      destruct Hc as [<- | Hc]; [exact Hdate|].
      apply List.in_map_iff in Hc. destruct Hc as [f [<- Hf]].
      apply Hcells, Hf.
Qed.

Lemma csv_has_one_line_per_submission_witness :
  match FormAnalytics.exportToCSV (fun s => s)
          [ {| FormAnalytics.id := "f1";
               FormAnalytics.field_name := "subscribe";
               FormAnalytics.required := false;
               FormAnalytics.field_label := "Subscribe?";
               FormAnalytics.field_type := "checkbox" |} ]
          [ {| FormAnalytics.sub_id := "s1";
               FormAnalytics.submission_data :=
                 {[ "subscribe" := JsBoolean true ]};
               FormAnalytics.submitted_at := "2025-12-06";
               FormAnalytics.ip_address := None |} ]
  with
  | Some csv =>
      [ {| FormAnalytics.sub_id := "s1";
           FormAnalytics.submission_data :=
             {[ "subscribe" := JsBoolean true ]};
           FormAnalytics.submitted_at := "2025-12-06";
           FormAnalytics.ip_address := None |} ] <> []
      /\ occurrences line_feed csv = 1
  | None => False
  end.
Proof.
  apply (csv_has_one_line_per_submission (fun s => s)
           [ {| FormAnalytics.id := "f1";
                FormAnalytics.field_name := "subscribe";
                FormAnalytics.required := false;
                FormAnalytics.field_label := "Subscribe?";
                FormAnalytics.field_type := "checkbox" |} ]
           [ {| FormAnalytics.sub_id := "s1";
                FormAnalytics.submission_data :=
                  {[ "subscribe" := JsBoolean true ]};
                FormAnalytics.submitted_at := "2025-12-06";
                FormAnalytics.ip_address := None |} ]).
  - intros f [<- | []]. reflexivity.
  - intros sub [<- | []]. split; [reflexivity|].
    intros f [<- | []]. reflexivity.
Defined.
